(** * The terraform_data-style pass-through resource (box.go)

    A shallow embedding of [internal/builtin/providers/terraform/box.go] and
    of the parts of its collaborators that the file calls: go-cty's typed
    values, [tfdiags] diagnostics, [configschema] blocks and the [providers]
    request and response structs.

    A Go panic is modelled by [None]: every operation that can panic returns
    an [option], and the resource functions thread it with the option monad. *)

Set Warnings "-register-all".
From Stdlib Require Import Ascii.
From stdpp Require Import gmap strings list fin_maps.

Local Open Scope string_scope.

(** ** go-cty: types and values *)
Module cty.

(** [cty.Type].  [NilType] is the zero [Type]; [DynamicPseudoType] is the
    placeholder type of a value whose type is not yet decided. *)
Inductive Ty : Type :=
  | NilType
  | String
  | Number
  | Bool
  | DynamicPseudoType
  | Tuple (etys : list Ty)
  | Object (atys : gmap string Ty).

(** [cty.Value]: a type together with null, the unknown marker, or a raw
    value of that type.  Known non-null values are primitives, tuples and
    objects; an object keeps its attributes in a map keyed by name, as cty
    does.  Marks and unknown-value refinements are not modelled. *)
Inductive Value : Type :=
  | NullVal (ty : Ty)
  | UnknownVal (ty : Ty)
  | StringVal (s : string)
  | NumberIntVal (n : Z)
  | BoolVal (b : bool)
  | TupleVal (elems : list Value)
  | ObjectVal (attrs : gmap string Value).

(** [cty.NilVal], the zero [Value] a Go struct field holds before it is
    assigned: no type and a nil payload. *)
Definition NilVal : Value := NullVal NilType.

(** [cty.DynamicVal], the unknown value of unknown type. *)
Definition DynamicVal : Value := UnknownVal DynamicPseudoType.

(** [val.Type()]. *)
Fixpoint TypeOf (val : Value) : Ty :=
  match val with
  | NullVal ty | UnknownVal ty => ty
  | StringVal _ => String
  | NumberIntVal _ => Number
  | BoolVal _ => Bool
  | TupleVal elems => Tuple (TypeOf <$> elems)
  | ObjectVal attrs => Object (TypeOf <$> attrs)
  end.

(** [val.IsNull()]: the payload is nil.  An unknown value is not null. *)
Definition IsNull (val : Value) : bool :=
  match val with
  | NullVal _ => true
  | _ => false
  end.

(** [val.IsKnown()]: the payload is not the unknown marker.  A null is
    known. *)
Definition IsKnown (val : Value) : bool :=
  match val with
  | UnknownVal _ => false
  | _ => true
  end.

(** [val.GetAttr(name)].  A value of [DynamicPseudoType] yields
    [DynamicVal]; a value that is not of an object type, or whose type has
    no attribute [name], panics; an unknown object yields the unknown of
    the attribute's type; a null object panics on its nil payload. *)
Definition GetAttr (val : Value) (name : string) : option Value :=
  match val with
  | NullVal DynamicPseudoType | UnknownVal DynamicPseudoType => Some DynamicVal
  | UnknownVal (Object atys) => UnknownVal <$> atys !! name
  | ObjectVal attrs => attrs !! name
  | _ => None
  end.

(** [val.AsValueMap()] for the object values the resource receives: the
    attribute map of a known, non-null object; a panic on anything that
    cannot be iterated.  (For an object without attributes cty returns a
    nil map; [GetAttr] on such an object panics before the resource writes
    to the map, so nil and empty are not told apart.) *)
Definition AsValueMap (val : Value) : option (gmap string Value) :=
  match val with
  | ObjectVal attrs => Some attrs
  | _ => None
  end.

Global Instance Ty_eq_dec : EqDecision Ty.
Proof.
  refine (fix go (t1 t2 : Ty) {struct t1} : Decision (t1 = t2) :=
    let _ : EqDecision Ty := go in
    match t1, t2 with
    | NilType, NilType | String, String | Number, Number | Bool, Bool
    | DynamicPseudoType, DynamicPseudoType => left _
    | Tuple l1, Tuple l2 => cast_if (decide (l1 = l2))
    | Object m1, Object m2 => cast_if (decide (m1 = m2))
    | _, _ => right _
    end); abstract congruence.
Defined.

Global Instance Value_eq_dec : EqDecision Value.
Proof.
  refine (fix go (v1 v2 : Value) {struct v1} : Decision (v1 = v2) :=
    let _ : EqDecision Value := go in
    match v1, v2 with
    | NullVal t1, NullVal t2 => cast_if (decide (t1 = t2))
    | UnknownVal t1, UnknownVal t2 => cast_if (decide (t1 = t2))
    | StringVal s1, StringVal s2 => cast_if (decide (s1 = s2))
    | NumberIntVal n1, NumberIntVal n2 => cast_if (decide (n1 = n2))
    | BoolVal b1, BoolVal b2 => cast_if (decide (b1 = b2))
    | TupleVal l1, TupleVal l2 => cast_if (decide (l1 = l2))
    | ObjectVal m1, ObjectVal m2 => cast_if (decide (m1 = m2))
    | _, _ => right _
    end); abstract congruence.
Defined.

(** [val.RawEquals(other)]: true if and only if the two values have the
    same type and equal value, with none of the usual short-circuits for
    unknowns: two unknowns of one type are equal, as are two nulls of one
    type, and known values are compared attribute by attribute and element
    by element.  A value of this model carries its type, so that is equality
    of the two values. *)
Definition RawEquals (val other : Value) : bool := bool_decide (val = other).

(** [cty.Path] with the one kind of step the resource builds. *)
Inductive PathStep : Type :=
  | GetAttrStep (name : string).

Definition Path : Type := list PathStep.

(** [cty.GetAttrPath(name)]. *)
Definition GetAttrPath (name : string) : Path := [GetAttrStep name].

End cty.

(** A Go [error], kept as the message [err.Error()] returns. *)
Definition error : Type := string.

(** ** fmt *)
Module fmt.

(** The verb [%q] on a string that needs no escapes: the string between
    double quotes. *)
Definition q (s : string) : string :=
  String.String "034"%char (s +:+ String.String "034"%char "").

End fmt.

(** ** tfdiags *)
Module tfdiags.

Inductive Severity : Type :=
  | Error
  | Warning.

(** Modelled from the spec: package [tfdiags] is not among the sources.
    The spec's diagnostics channel appends errors, each with a
    human-readable message and, where applicable, the attribute path at
    fault.  [nativeError] is what [Append] makes of a plain Go error;
    [attributeDiagnostic] is what [AttributeValue] builds. *)
Inductive Diagnostic : Type :=
  | nativeError (err : error)
  | attributeDiagnostic (severity : Severity) (summary detail : string)
                        (attrPath : cty.Path).

Definition Diagnostics : Type := list Diagnostic.

(** Modelled from the spec: [tfdiags.AttributeValue(severity, summary,
    detail, attrPath)], a diagnostic tagged with an attribute path. *)
Definition AttributeValue (severity : Severity) (summary detail : string)
    (attrPath : cty.Path) : Diagnostic :=
  attributeDiagnostic severity summary detail attrPath.

(** Modelled from the spec: [diags.Append(d)] returns [diags] with [d]
    added at the end. *)
Definition Append (diags : Diagnostics) (d : Diagnostic) : Diagnostics :=
  (diags ++ [d])%list.

(** The attribute path a diagnostic is attached to, if any. *)
Definition attributePath (d : Diagnostic) : option cty.Path :=
  match d with
  | nativeError _ => None
  | attributeDiagnostic _ _ _ attrPath => Some attrPath
  end.

End tfdiags.

(** ** configschema *)
Module configschema.

(** Modelled from the spec: package [configschema] is not among the
    sources.  An attribute declares its type and whether it is optional
    (user-supplied) or computed. *)
Record Attribute : Type := mkAttribute {
  Type_ : cty.Ty;
  Optional : bool;
  Computed : bool
}.

(** Modelled from the spec: a block is its attribute set. *)
Record Block : Type := mkBlock {
  Attributes : gmap string Attribute
}.

(** Modelled from the spec: the schema's implied shape, the object type
    that gives every declared attribute its declared type. *)
Definition ImpliedType (b : Block) : cty.Ty :=
  cty.Object (Type_ <$> Attributes b).

End configschema.

(** ** providers: the request and response structs

    Modelled from the spec: package [providers] is not among the sources; each
    struct carries the fields the contracts of sections 4 and 6 of the
    specification name.  [zero] is the Go zero value a named result starts
    from, and a [set_] function is an assignment to one field. *)
Module providers.

Record Schema : Type := mkSchema {
  Block : configschema.Block
}.

Module ValidateResourceConfigRequest.
Record t : Type := mk { Config : cty.Value }.
End ValidateResourceConfigRequest.

Module ValidateResourceConfigResponse.
Record t : Type := mk { Diagnostics : tfdiags.Diagnostics }.
Definition zero : t := mk [].
Definition set_Diagnostics (d : tfdiags.Diagnostics) (r : t) : t := mk d.
End ValidateResourceConfigResponse.

Module UpgradeResourceStateRequest.
Record t : Type := mk { Version : Z; RawStateJSON : list Byte.byte }.
End UpgradeResourceStateRequest.

Module UpgradeResourceStateResponse.
Record t : Type := mk {
  UpgradedState : cty.Value;
  Diagnostics : tfdiags.Diagnostics
}.
Definition zero : t := mk cty.NilVal [].
Definition set_UpgradedState (v : cty.Value) (r : t) : t :=
  mk v (Diagnostics r).
Definition set_Diagnostics (d : tfdiags.Diagnostics) (r : t) : t :=
  mk (UpgradedState r) d.
End UpgradeResourceStateResponse.

Module ReadResourceRequest.
Record t : Type := mk { PriorState : cty.Value }.
End ReadResourceRequest.

Module ReadResourceResponse.
Record t : Type := mk {
  NewState : cty.Value;
  Diagnostics : tfdiags.Diagnostics
}.
Definition zero : t := mk cty.NilVal [].
Definition set_NewState (v : cty.Value) (r : t) : t :=
  mk v (Diagnostics r).
End ReadResourceResponse.

Module PlanResourceChangeRequest.
Record t : Type := mk {
  PriorState : cty.Value;
  ProposedNewState : cty.Value
}.
End PlanResourceChangeRequest.

Module PlanResourceChangeResponse.
Record t : Type := mk {
  PlannedState : cty.Value;
  RequiresReplace : list cty.Path;
  Diagnostics : tfdiags.Diagnostics
}.
Definition zero : t := mk cty.NilVal [] [].
Definition set_PlannedState (v : cty.Value) (r : t) : t :=
  mk v (RequiresReplace r) (Diagnostics r).
Definition set_RequiresReplace (ps : list cty.Path) (r : t) : t :=
  mk (PlannedState r) ps (Diagnostics r).
End PlanResourceChangeResponse.

Module ApplyResourceChangeRequest.
Record t : Type := mk { PlannedState : cty.Value }.
End ApplyResourceChangeRequest.

Module ApplyResourceChangeResponse.
Record t : Type := mk {
  NewState : cty.Value;
  Diagnostics : tfdiags.Diagnostics
}.
Definition zero : t := mk cty.NilVal [].
Definition set_NewState (v : cty.Value) (r : t) : t :=
  mk v (Diagnostics r).
Definition set_Diagnostics (d : tfdiags.Diagnostics) (r : t) : t :=
  mk (NewState r) d.
End ApplyResourceChangeResponse.

End providers.

Module ValidateReq := providers.ValidateResourceConfigRequest.
Module ValidateResp := providers.ValidateResourceConfigResponse.
Module UpgradeReq := providers.UpgradeResourceStateRequest.
Module UpgradeResp := providers.UpgradeResourceStateResponse.
Module ReadReq := providers.ReadResourceRequest.
Module ReadResp := providers.ReadResourceResponse.
Module PlanReq := providers.PlanResourceChangeRequest.
Module PlanResp := providers.PlanResourceChangeResponse.
Module ApplyReq := providers.ApplyResourceChangeRequest.
Module ApplyResp := providers.ApplyResourceChangeResponse.

(** ** box.go *)

Definition dataResourceSchema : providers.Schema :=
  providers.mkSchema (configschema.mkBlock (list_to_map [
    ("input", configschema.mkAttribute cty.DynamicPseudoType true false);
    ("output", configschema.mkAttribute cty.DynamicPseudoType false true);
    ("trigger", configschema.mkAttribute cty.DynamicPseudoType true false);
    ("uuid", configschema.mkAttribute cty.String false true)
  ])).

(** The loop body of [validateDataResourceConfig]: one computed attribute
    checked against the configuration. *)
Definition validateAttr (config : cty.Value) (resp : option ValidateResp.t)
    (attr : string) : option ValidateResp.t :=
  resp ← resp;
  v ← cty.GetAttr config attr;
  if negb (cty.IsNull v) then
    Some (ValidateResp.set_Diagnostics
            (tfdiags.Append (ValidateResp.Diagnostics resp)
               (tfdiags.nativeError (fmt.q attr +:+ " attribute is read-only")))
            resp)
  else Some resp.

Definition validateDataResourceConfig (req : ValidateReq.t)
    : option ValidateResp.t :=
  let resp := ValidateResp.zero in
  if cty.IsNull (ValidateReq.Config req) then Some resp
  else
    (* Core does not currently validate computed values are not set in the
       configuration. *)
    foldl (validateAttr (ValidateReq.Config req)) (Some resp) ["uuid"; "output"].

Section StateCodec.

(** [ctyjson.Unmarshal]: the external decoder, with Go's result pair of a
    value and an error ([None] for nil). *)
Variable Unmarshal : list Byte.byte → cty.Ty → cty.Value * option error.

Definition upgradeDataResourceState (req : UpgradeReq.t) : UpgradeResp.t :=
  let resp := UpgradeResp.zero in
  let ty := configschema.ImpliedType (providers.Block dataResourceSchema) in
  let '(val, err) := Unmarshal (UpgradeReq.RawStateJSON req) ty in
  match err with
  | Some err =>
      UpgradeResp.set_Diagnostics
        (tfdiags.Append (UpgradeResp.Diagnostics resp) (tfdiags.nativeError err))
        resp
  | None => UpgradeResp.set_UpgradedState val resp
  end.

End StateCodec.

Definition readDataResourceState (req : ReadReq.t) : ReadResp.t :=
  ReadResp.set_NewState (ReadReq.PriorState req) ReadResp.zero.

Definition planDataResourceChange (req : PlanReq.t) : option PlanResp.t :=
  let resp := PlanResp.zero in
  if cty.IsNull (PlanReq.ProposedNewState req) then
    (* destroy op *)
    Some (PlanResp.set_PlannedState (PlanReq.ProposedNewState req) resp)
  else
    planned ← cty.AsValueMap (PlanReq.ProposedNewState req);
    input ← cty.GetAttr (PlanReq.ProposedNewState req) "input";
    trigger ← cty.GetAttr (PlanReq.ProposedNewState req) "trigger";
    if cty.IsNull (PlanReq.PriorState req) then
      (* Create: set the uuid value to unknown. *)
      let planned := <["uuid" := cty.UnknownVal cty.String]> planned in
      (* Only compute a new output if input has a non-null value. *)
      let planned :=
        if negb (cty.IsNull input)
        then <["output" := cty.UnknownVal (cty.TypeOf input)]> planned
        else planned in
      Some (PlanResp.set_PlannedState (cty.ObjectVal planned) resp)
    else
      priorTrigger ← cty.GetAttr (PlanReq.PriorState req) "trigger";
      if negb (cty.RawEquals priorTrigger trigger) then
        (* trigger changed, so we need to replace the entire instance *)
        let resp :=
          PlanResp.set_RequiresReplace
            (PlanResp.RequiresReplace resp ++ [cty.GetAttrPath "trigger"])%list
            resp in
        let planned := <["uuid" := cty.UnknownVal cty.String]> planned in
        (* We need to check the input for the replacement instance to
           compute a new output. *)
        let planned :=
          if cty.IsNull input
          then <["output" := cty.NullVal cty.DynamicPseudoType]> planned
          else <["output" := cty.UnknownVal (cty.TypeOf input)]> planned in
        Some (PlanResp.set_PlannedState (cty.ObjectVal planned) resp)
      else
        priorInput ← cty.GetAttr (PlanReq.PriorState req) "input";
        if negb (cty.RawEquals priorInput input) then
          (* only input changed, so we only need to re-compute output *)
          let planned := <["output" := cty.UnknownVal (cty.TypeOf input)]> planned in
          Some (PlanResp.set_PlannedState (cty.ObjectVal planned) resp)
        else
          Some (PlanResp.set_PlannedState (cty.ObjectVal planned) resp).

Section Applier.

(** [uuid.GenerateUUID]: the external generator, with Go's result pair of
    a string and an error ([None] for nil). *)
Variable GenerateUUID : unit → string * option error.

(** The package variable [testUUIDHook]: nil, or a function that returns
    the identifier to use. *)
Variable testUUIDHook : option (unit → string).

Definition applyDataResourceChange (req : ApplyReq.t) : option ApplyResp.t :=
  let resp := ApplyResp.zero in
  if cty.IsNull (ApplyReq.PlannedState req) then
    Some (ApplyResp.set_NewState (ApplyReq.PlannedState req) resp)
  else
    newState ← cty.AsValueMap (ApplyReq.PlannedState req);
    output ← cty.GetAttr (ApplyReq.PlannedState req) "output";
    newState ←
      (if negb (cty.IsKnown output) then
         input ← cty.GetAttr (ApplyReq.PlannedState req) "input";
         Some (<["output" := input]> newState)
       else Some newState);
    uuid ← cty.GetAttr (ApplyReq.PlannedState req) "uuid";
    if negb (cty.IsKnown uuid) then
      let '(uuidString, err) := GenerateUUID () in
      (* Terraform would probably never get this far without a good random
         source, but catch the error anyway. *)
      let resp :=
        match err with
        | Some err =>
            let diag :=
              tfdiags.AttributeValue tfdiags.Error "Error generating uuid"
                err (cty.GetAttrPath "uuid") in
            ApplyResp.set_Diagnostics
              (tfdiags.Append (ApplyResp.Diagnostics resp) diag) resp
        | None => resp
        end in
      let uuidString :=
        match testUUIDHook with
        | Some hook => hook ()
        | None => uuidString
        end in
      let newState := <["uuid" := cty.StringVal uuidString]> newState in
      Some (ApplyResp.set_NewState (cty.ObjectVal newState) resp)
    else
      Some (ApplyResp.set_NewState (cty.ObjectVal newState) resp).

End Applier.

(** ** Example states

    A state object of the resource with the four attributes of the schema,
    and the values the examples of section 8 of the specification use. *)

Definition stateAttrs (input output trigger uuid : cty.Value)
    : gmap string cty.Value :=
  list_to_map [
    ("input", input); ("output", output); ("trigger", trigger); ("uuid", uuid)
  ].

Definition stateObject (input output trigger uuid : cty.Value) : cty.Value :=
  cty.ObjectVal (stateAttrs input output trigger uuid).

Definition dynamicNull : cty.Value := cty.NullVal cty.DynamicPseudoType.

Definition nullState : cty.Value :=
  cty.NullVal (configschema.ImpliedType (providers.Block dataResourceSchema)).

(** A generator that fails, returning the empty string with its error, as
    [uuid.GenerateUUID] does. *)
Definition failingGenerator (_ : unit) : string * option error :=
  ("", Some "failed to read random bytes").

Definition workingGenerator (_ : unit) : string * option error :=
  ("6ba7b810-9dad-11d1-80b4-00c04fd430c8", None).

(** A decoder for the examples: it rejects the empty input and reads any
    other input as the null of the requested type. *)
Definition exampleUnmarshal (raw : list Byte.byte) (ty : cty.Ty)
    : cty.Value * option error :=
  match raw with
  | [] => (cty.NilVal, Some "unexpected end of JSON input")
  | _ => (cty.NullVal ty, None)
  end.

(** The state [{input:a, output:a, trigger:t, uuid:U}] after a create and
    an apply, the proposal that changes its [input] to [b], the proposal
    that changes its [trigger] to [t2], and the planned state of its
    create. *)
Definition appliedState : cty.Value :=
  stateObject (cty.StringVal "a") (cty.StringVal "a") (cty.StringVal "t")
    (cty.StringVal "U").

Definition inputChangedAttrs : gmap string cty.Value :=
  stateAttrs (cty.StringVal "b") (cty.StringVal "a") (cty.StringVal "t")
    (cty.StringVal "U").

Definition triggerChangedAttrs : gmap string cty.Value :=
  stateAttrs (cty.StringVal "a") (cty.StringVal "a") (cty.StringVal "t2")
    (cty.StringVal "U").

Definition createdAttrs : gmap string cty.Value :=
  stateAttrs (cty.StringVal "a") (cty.UnknownVal cty.String)
    (cty.StringVal "t") (cty.UnknownVal cty.String).

(** A test hook that returns a fixed identifier. *)
Definition fixedHook (_ : unit) : string := "test-uuid".

(** ** States of the schema's shape

    A value the orchestrator hands over as a state: a null, or a known
    object that carries exactly the attributes [dataResourceSchema]
    declares. *)
Definition isResourceState (val : cty.Value) : bool :=
  match val with
  | cty.NullVal _ => true
  | cty.ObjectVal attrs =>
      bool_decide
        (dom attrs
         = dom (configschema.Attributes (providers.Block dataResourceSchema)))
  | _ => false
  end.

(** * Properties *)

(** ** The value model *)

Lemma GetAttr_ObjectVal (attrs : gmap string cty.Value) (name : string) :
  cty.GetAttr (cty.ObjectVal attrs) name = attrs !! name.
Proof. reflexivity. Qed.

Lemma RawEquals_true (val other : cty.Value) :
  cty.RawEquals val other = true ↔ val = other.
Proof. unfold cty.RawEquals. apply bool_decide_eq_true. Qed.

Lemma RawEquals_false (val other : cty.Value) :
  cty.RawEquals val other = false ↔ val ≠ other.
Proof. unfold cty.RawEquals. apply bool_decide_eq_false. Qed.

Lemma RawEquals_refl (val : cty.Value) : cty.RawEquals val val = true.
Proof. by apply RawEquals_true. Qed.

Lemma RawEquals_type (val other : cty.Value) :
  cty.RawEquals val other = true → cty.TypeOf val = cty.TypeOf other.
Proof. intros ->%RawEquals_true. reflexivity. Qed.

(** Values of different types are never raw-equal, whatever their
    payloads. *)
Lemma RawEquals_type_mismatch (val other : cty.Value) :
  cty.TypeOf val ≠ cty.TypeOf other → cty.RawEquals val other = false.
Proof.
  intros Hty. apply RawEquals_false. intros ->. by apply Hty.
Qed.

Lemma IsKnown_UnknownVal (val : cty.Value) :
  cty.IsKnown val = false ↔ val = cty.UnknownVal (cty.TypeOf val).
Proof.
  split.
  - destruct val; simpl; congruence.
  - intros ->. reflexivity.
Qed.

Lemma IsNull_IsKnown (val : cty.Value) :
  cty.IsNull val = true → cty.IsKnown val = true.
Proof. by destruct val. Qed.

(** ** Planner: one equation per branch of the switch *)

Section Planner.

Variables (prior : cty.Value) (attrs : gmap string cty.Value).
Variables (input trigger : cty.Value).
Hypothesis Hinput : attrs !! "input" = Some input.
Hypothesis Htrigger : attrs !! "trigger" = Some trigger.

Let req : PlanReq.t := PlanReq.mk prior (cty.ObjectVal attrs).

Lemma plan_create_eq :
  cty.IsNull prior = true →
  planDataResourceChange req =
    Some (PlanResp.mk
            (cty.ObjectVal
               (if cty.IsNull input
                then <["uuid" := cty.UnknownVal cty.String]> attrs
                else <["output" := cty.UnknownVal (cty.TypeOf input)]>
                       (<["uuid" := cty.UnknownVal cty.String]> attrs)))
            [] []).
Proof.
  intros Hprior. unfold planDataResourceChange, req. simpl.
  rewrite Hinput, Htrigger. simpl. rewrite Hprior.
  by destruct (cty.IsNull input).
Qed.

Lemma plan_replace_eq (priorTrigger : cty.Value) :
  cty.IsNull prior = false →
  cty.GetAttr prior "trigger" = Some priorTrigger →
  cty.RawEquals priorTrigger trigger = false →
  planDataResourceChange req =
    Some (PlanResp.mk
            (cty.ObjectVal
               (<["output" := if cty.IsNull input
                              then cty.NullVal cty.DynamicPseudoType
                              else cty.UnknownVal (cty.TypeOf input)]>
                  (<["uuid" := cty.UnknownVal cty.String]> attrs)))
            [cty.GetAttrPath "trigger"] []).
Proof.
  intros Hprior Hpt Hne. unfold planDataResourceChange, req. simpl.
  rewrite Hinput, Htrigger. simpl. rewrite Hprior, Hpt. simpl.
  rewrite Hne. simpl. by destruct (cty.IsNull input).
Qed.

Lemma plan_input_eq (priorTrigger priorInput : cty.Value) :
  cty.IsNull prior = false →
  cty.GetAttr prior "trigger" = Some priorTrigger →
  cty.RawEquals priorTrigger trigger = true →
  cty.GetAttr prior "input" = Some priorInput →
  cty.RawEquals priorInput input = false →
  planDataResourceChange req =
    Some (PlanResp.mk
            (cty.ObjectVal
               (<["output" := cty.UnknownVal (cty.TypeOf input)]> attrs))
            [] []).
Proof.
  intros Hprior Hpt Heq Hpi Hne. unfold planDataResourceChange, req. simpl.
  rewrite Hinput, Htrigger. simpl. rewrite Hprior, Hpt. simpl.
  rewrite Heq, Hpi. simpl. by rewrite Hne.
Qed.

Lemma plan_unchanged_eq (priorTrigger priorInput : cty.Value) :
  cty.IsNull prior = false →
  cty.GetAttr prior "trigger" = Some priorTrigger →
  cty.RawEquals priorTrigger trigger = true →
  cty.GetAttr prior "input" = Some priorInput →
  cty.RawEquals priorInput input = true →
  planDataResourceChange req =
    Some (PlanResp.mk (cty.ObjectVal attrs) [] []).
Proof.
  intros Hprior Hpt Heq Hpi Heq'. unfold planDataResourceChange, req. simpl.
  rewrite Hinput, Htrigger. simpl. rewrite Hprior, Hpt. simpl.
  rewrite Heq, Hpi. simpl. by rewrite Heq'.
Qed.

End Planner.

(** A proposed state that is not a known object cannot be planned:
    [AsValueMap] panics on it. *)
Lemma plan_unknown_proposed_panics (prior : cty.Value) (ty : cty.Ty) :
  planDataResourceChange (PlanReq.mk prior (cty.UnknownVal ty)) = None.
Proof. reflexivity. Qed.

(** Reading returns the prior state. *)
Lemma read_prior_state (prior : cty.Value) :
  ReadResp.NewState (readDataResourceState (ReadReq.mk prior)) = prior.
Proof. reflexivity. Qed.


(** ** Planner: the claims *)

(** C1. Trigger changed: for a non-null prior state and a proposed object
    whose [trigger] is not raw-equal to the prior one, the plan succeeds and
    marks exactly the path [trigger] as requiring replacement; the planned
    [uuid] is unknown; the planned [output] is the explicit null of the
    dynamic type when the proposed [input] is null and the unknown of
    [input]'s type otherwise; every other attribute is as proposed.  Nothing
    is assumed about the prior [input]: the result is the same whether or
    not [input] changed too, so the input-only branch does not run. *)
Theorem plan_trigger_changed (prior : cty.Value) (attrs : gmap string cty.Value)
    (input trigger priorTrigger : cty.Value) :
  cty.IsNull prior = false →
  cty.GetAttr prior "trigger" = Some priorTrigger →
  attrs !! "input" = Some input →
  attrs !! "trigger" = Some trigger →
  cty.RawEquals priorTrigger trigger = false →
  ∃ resp,
    planDataResourceChange (PlanReq.mk prior (cty.ObjectVal attrs)) = Some resp
    ∧ PlanResp.RequiresReplace resp = [cty.GetAttrPath "trigger"]
    ∧ cty.GetAttr (PlanResp.PlannedState resp) "uuid"
      = Some (cty.UnknownVal cty.String)
    ∧ cty.GetAttr (PlanResp.PlannedState resp) "output"
      = Some (if cty.IsNull input
              then cty.NullVal cty.DynamicPseudoType
              else cty.UnknownVal (cty.TypeOf input))
    ∧ (∀ name, name ≠ "uuid" → name ≠ "output" →
         cty.GetAttr (PlanResp.PlannedState resp) name = attrs !! name)
    ∧ PlanResp.Diagnostics resp = [].
Proof.
  intros Hprior Hpt Hinput Htrigger Hne.
  eexists. split.
  { eapply plan_replace_eq; eassumption. }
  simpl. repeat split.
  - rewrite lookup_insert_ne by done. apply lookup_insert_eq.
  - apply lookup_insert_eq.
  - intros name Hu Ho. by rewrite !lookup_insert_ne.
Qed.

(** C3. Create: for a null prior state and a proposed object, the plan
    succeeds with an empty replacement set and an unknown planned [uuid];
    the planned [output] is the unknown of [input]'s type when the proposed
    [input] is not null; when the proposed [input] is null the planned
    [output] is the proposed [output] untouched, so a null [output] remains
    null and is not unknown. *)
Theorem plan_create (prior : cty.Value) (attrs : gmap string cty.Value)
    (input trigger : cty.Value) :
  cty.IsNull prior = true →
  attrs !! "input" = Some input →
  attrs !! "trigger" = Some trigger →
  ∃ resp,
    planDataResourceChange (PlanReq.mk prior (cty.ObjectVal attrs)) = Some resp
    ∧ PlanResp.RequiresReplace resp = []
    ∧ cty.GetAttr (PlanResp.PlannedState resp) "uuid"
      = Some (cty.UnknownVal cty.String)
    ∧ (cty.IsNull input = false →
         cty.GetAttr (PlanResp.PlannedState resp) "output"
         = Some (cty.UnknownVal (cty.TypeOf input)))
    ∧ (cty.IsNull input = true →
         cty.GetAttr (PlanResp.PlannedState resp) "output" = attrs !! "output"
         ∧ ∀ output, attrs !! "output" = Some output →
             cty.IsNull output = true →
             cty.GetAttr (PlanResp.PlannedState resp) "output" = Some output
             ∧ cty.IsKnown output = true).
Proof.
  intros Hprior Hinput Htrigger.
  eexists. split.
  { eapply plan_create_eq; eassumption. }
  simpl. split_and!.
  - done.
  - destruct (cty.IsNull input); simpl.
    + apply lookup_insert_eq.
    + rewrite lookup_insert_ne by done. apply lookup_insert_eq.
  - intros ->. simpl. apply lookup_insert_eq.
  - intros ->. simpl. rewrite lookup_insert_ne by done.
    split; [done|]. intros output Houtput Hnull.
    split; [done|]. by apply IsNull_IsKnown.
Qed.

(** C4. Input changed only: for a non-null prior state and a proposed
    object whose [trigger] is raw-equal to the prior one and whose [input]
    is not, the plan succeeds with an empty replacement set; the planned
    [output] is the unknown of the new [input]'s type and the planned [uuid]
    is the proposed [uuid], as is every other attribute. *)
Theorem plan_input_changed (prior : cty.Value) (attrs : gmap string cty.Value)
    (input trigger priorInput priorTrigger : cty.Value) :
  cty.IsNull prior = false →
  cty.GetAttr prior "trigger" = Some priorTrigger →
  cty.GetAttr prior "input" = Some priorInput →
  attrs !! "input" = Some input →
  attrs !! "trigger" = Some trigger →
  cty.RawEquals priorTrigger trigger = true →
  cty.RawEquals priorInput input = false →
  ∃ resp,
    planDataResourceChange (PlanReq.mk prior (cty.ObjectVal attrs)) = Some resp
    ∧ PlanResp.RequiresReplace resp = []
    ∧ cty.GetAttr (PlanResp.PlannedState resp) "output"
      = Some (cty.UnknownVal (cty.TypeOf input))
    ∧ cty.GetAttr (PlanResp.PlannedState resp) "uuid" = attrs !! "uuid"
    ∧ (∀ name, name ≠ "output" →
         cty.GetAttr (PlanResp.PlannedState resp) name = attrs !! name).
Proof.
  intros Hprior Hpt Hpi Hinput Htrigger Heq Hne.
  eexists. split.
  { eapply plan_input_eq; eassumption. }
  simpl. repeat split.
  - apply lookup_insert_eq.
  - by rewrite lookup_insert_ne.
  - intros name Ho. by rewrite lookup_insert_ne.
Qed.

(** C5. No change: planning a known state object [S] against itself
    returns [S] itself as the planned state, with an empty replacement set
    and no diagnostics. *)
Theorem plan_no_change (attrs : gmap string cty.Value) :
  is_Some (attrs !! "input") →
  is_Some (attrs !! "trigger") →
  planDataResourceChange (PlanReq.mk (cty.ObjectVal attrs) (cty.ObjectVal attrs))
  = Some (PlanResp.mk (cty.ObjectVal attrs) [] []).
Proof.
  intros [input Hinput] [trigger Htrigger].
  eapply plan_unchanged_eq; try eassumption; try reflexivity;
    apply RawEquals_refl.
Qed.

(** ** Applier: the result on a known planned object *)

Section ApplierFacts.

Variable GenerateUUID : unit → string * option error.
Variable testUUIDHook : option (unit → string).
Variable attrs : gmap string cty.Value.
Variables input output uuid : cty.Value.
Hypothesis Hinput : attrs !! "input" = Some input.
Hypothesis Houtput : attrs !! "output" = Some output.
Hypothesis Huuid : attrs !! "uuid" = Some uuid.

Lemma apply_eq :
  applyDataResourceChange GenerateUUID testUUIDHook
    (ApplyReq.mk (cty.ObjectVal attrs))
  = let newState :=
      if cty.IsKnown output then attrs else <["output" := input]> attrs in
    Some (if cty.IsKnown uuid
          then ApplyResp.mk (cty.ObjectVal newState) []
          else ApplyResp.mk
                 (cty.ObjectVal
                    (<["uuid" := cty.StringVal
                                   match testUUIDHook with
                                   | Some hook => hook ()
                                   | None => (GenerateUUID ()).1
                                   end]> newState))
                 match (GenerateUUID ()).2 with
                 | Some err =>
                     [tfdiags.AttributeValue tfdiags.Error
                        "Error generating uuid" err (cty.GetAttrPath "uuid")]
                 | None => []
                 end).
Proof.
  unfold applyDataResourceChange. simpl. rewrite Houtput, Huuid. simpl.
  destruct (cty.IsKnown output); simpl; rewrite ?Hinput; simpl;
    destruct (cty.IsKnown uuid); simpl; try reflexivity;
    destruct (GenerateUUID ()) as [uuidString [err|]]; reflexivity.
Qed.

Lemma apply_output_unknown :
  cty.IsKnown output = false →
  ∃ resp,
    applyDataResourceChange GenerateUUID testUUIDHook
      (ApplyReq.mk (cty.ObjectVal attrs)) = Some resp
    ∧ cty.GetAttr (ApplyResp.NewState resp) "output" = Some input.
Proof.
  intros Hunk. eexists. split; [apply apply_eq|].
  simpl. rewrite Hunk. destruct (cty.IsKnown uuid); simpl.
  - apply lookup_insert_eq.
  - rewrite lookup_insert_ne by done. apply lookup_insert_eq.
Qed.

(** Applying a plan whose [output] and [uuid] are known changes nothing and
    does not call the generator. *)
Lemma apply_known_unchanged :
  cty.IsKnown output = true →
  cty.IsKnown uuid = true →
  applyDataResourceChange GenerateUUID testUUIDHook
    (ApplyReq.mk (cty.ObjectVal attrs))
  = Some (ApplyResp.mk (cty.ObjectVal attrs) []).
Proof.
  intros Hout Hid. rewrite apply_eq. simpl. by rewrite Hout, Hid.
Qed.

End ApplierFacts.

(** ** Applier: the claims *)

(** C6. Apply resolves an unknown [output]: for a planned object whose
    [output] is unknown and whose [input] is a known value [v], apply
    succeeds and the [output] of the final state is [v]. *)
Theorem apply_resolves_output (GenerateUUID : unit → string * option error)
    (testUUIDHook : option (unit → string)) (attrs : gmap string cty.Value)
    (v output : cty.Value) :
  attrs !! "input" = Some v →
  attrs !! "output" = Some output →
  is_Some (attrs !! "uuid") →
  cty.IsKnown output = false →
  cty.IsKnown v = true →
  ∃ resp,
    applyDataResourceChange GenerateUUID testUUIDHook
      (ApplyReq.mk (cty.ObjectVal attrs)) = Some resp
    ∧ cty.GetAttr (ApplyResp.NewState resp) "output" = Some v.
Proof.
  intros Hinput Houtput [uuid Huuid] Hunk _.
  by eapply apply_output_unknown.
Qed.

(** C10. The copy is verbatim: for a planned object whose [output] is
    unknown, apply stores the planned [input] in [output] whatever it is; if
    the planned [input] is unknown, the [output] of the final state is
    unknown too, and so the final state is not wholly known. *)
Theorem apply_copies_input_verbatim
    (GenerateUUID : unit → string * option error)
    (testUUIDHook : option (unit → string)) (attrs : gmap string cty.Value)
    (input output : cty.Value) :
  attrs !! "input" = Some input →
  attrs !! "output" = Some output →
  is_Some (attrs !! "uuid") →
  cty.IsKnown output = false →
  ∃ resp,
    applyDataResourceChange GenerateUUID testUUIDHook
      (ApplyReq.mk (cty.ObjectVal attrs)) = Some resp
    ∧ cty.GetAttr (ApplyResp.NewState resp) "output" = Some input
    ∧ (cty.IsKnown input = false →
         ∃ final, cty.GetAttr (ApplyResp.NewState resp) "output" = Some final
                  ∧ cty.IsKnown final = false).
Proof.
  intros Hinput Houtput [uuid Huuid] Hunk.
  destruct (apply_output_unknown GenerateUUID testUUIDHook attrs input output
              uuid Hinput Houtput Huuid Hunk) as (resp & Hresp & Hout).
  exists resp. repeat split; try done.
  intros Hin. by exists input.
Qed.

(** C2, as the code has it.  Generator failure: for a planned object whose
    [uuid] is unknown, when the generator returns an error, apply succeeds
    with exactly one diagnostic, the error attached to the path [uuid]; the
    [uuid] of the final state is a known string, the one the generator
    returned with its error or the one the test hook returns when a hook is
    set; every other attribute that was known in the planned state is
    unchanged. *)
Theorem apply_generator_failure (GenerateUUID : unit → string * option error)
    (testUUIDHook : option (unit → string)) (attrs : gmap string cty.Value)
    (input output uuid : cty.Value) (uuidString : string) (err : error) :
  attrs !! "input" = Some input →
  attrs !! "output" = Some output →
  attrs !! "uuid" = Some uuid →
  cty.IsKnown uuid = false →
  GenerateUUID () = (uuidString, Some err) →
  ∃ resp,
    applyDataResourceChange GenerateUUID testUUIDHook
      (ApplyReq.mk (cty.ObjectVal attrs)) = Some resp
    ∧ ApplyResp.Diagnostics resp
      = [tfdiags.AttributeValue tfdiags.Error "Error generating uuid" err
           (cty.GetAttrPath "uuid")]
    ∧ (∃ final,
         cty.GetAttr (ApplyResp.NewState resp) "uuid" = Some final
         ∧ final = cty.StringVal match testUUIDHook with
                                 | Some hook => hook ()
                                 | None => uuidString
                                 end
         ∧ cty.IsKnown final = true)
    ∧ (∀ name val, name ≠ "uuid" → attrs !! name = Some val →
         cty.IsKnown val = true →
         cty.GetAttr (ApplyResp.NewState resp) name = Some val).
Proof.
  intros Hinput Houtput Huuid Hunk Hgen.
  eexists. split.
  { eapply apply_eq; eassumption. }
  simpl. rewrite Hunk, Hgen. simpl. repeat split.
  - eexists. split; [apply lookup_insert_eq|]. by split.
  - intros name val Hname Hval Hknown.
    rewrite lookup_insert_ne by done.
    destruct (cty.IsKnown output) eqn:Hout; [done|].
    destruct (decide (name = "output")) as [->|Hne].
    + congruence.
    + by rewrite lookup_insert_ne.
Qed.

(** C8. Destroy: planning against a null proposed state returns that null
    as the planned state, with no replacement and no diagnostics, whatever
    the prior state; applying a null planned state returns that null as the
    final state, with no diagnostics. *)
Theorem destroy_round_trip (GenerateUUID : unit → string * option error)
    (testUUIDHook : option (unit → string)) (S proposed planned : cty.Value) :
  cty.IsNull proposed = true →
  cty.IsNull planned = true →
  planDataResourceChange (PlanReq.mk S proposed)
  = Some (PlanResp.mk proposed [] [])
  ∧ applyDataResourceChange GenerateUUID testUUIDHook (ApplyReq.mk planned)
    = Some (ApplyResp.mk planned []).
Proof.
  intros Hproposed Hplanned. split.
  - unfold planDataResourceChange. simpl. by rewrite Hproposed.
  - unfold applyDataResourceChange. simpl. by rewrite Hplanned.
Qed.

(** ** Validator *)

(** C7. Validation of a null configuration returns no diagnostics.  For a
    configuration that is not null, it returns one diagnostic per computed
    attribute, [uuid] then [output], whose value in the configuration is not
    null, each naming its attribute as read-only, and nothing else: none
    when both are null. *)
Theorem validate_read_only (config uuid output : cty.Value) :
  (cty.IsNull config = true →
     validateDataResourceConfig (ValidateReq.mk config)
     = Some (ValidateResp.mk []))
  ∧ (cty.IsNull config = false →
     cty.GetAttr config "uuid" = Some uuid →
     cty.GetAttr config "output" = Some output →
     ∃ resp,
       validateDataResourceConfig (ValidateReq.mk config) = Some resp
       ∧ ValidateResp.Diagnostics resp
         = ((if cty.IsNull uuid then []
             else [tfdiags.nativeError
                     (fmt.q "uuid" +:+ " attribute is read-only")])
            ++ (if cty.IsNull output then []
                else [tfdiags.nativeError
                        (fmt.q "output" +:+ " attribute is read-only")]))%list
       ∧ (cty.IsNull uuid = false →
            tfdiags.nativeError (fmt.q "uuid" +:+ " attribute is read-only")
            ∈ ValidateResp.Diagnostics resp)
       ∧ (cty.IsNull output = false →
            tfdiags.nativeError (fmt.q "output" +:+ " attribute is read-only")
            ∈ ValidateResp.Diagnostics resp)
       ∧ (cty.IsNull uuid = true → cty.IsNull output = true →
            ValidateResp.Diagnostics resp = [])).
Proof.
  split.
  - intros Hnull. unfold validateDataResourceConfig. simpl. by rewrite Hnull.
  - intros Hnull Huuid Houtput.
    unfold validateDataResourceConfig, validateAttr. simpl.
    rewrite Hnull, Huuid. simpl.
    destruct (cty.IsNull uuid); simpl; rewrite Houtput; simpl;
      destruct (cty.IsNull output); simpl;
      (eexists; split; [reflexivity|]); simpl;
      repeat split; intros; try done; set_solver.
Qed.

(** ** State codec *)

(** C9. Upgrade hands the raw state to the decoder together with the
    implied type of the schema, the object type of the four attributes.
    When the decoder returns an error, the response holds no upgraded value
    and one diagnostic, that error; when it returns none, the response holds
    the decoded value as it is and no diagnostics. *)
Theorem upgrade_decodes
    (Unmarshal : list Byte.byte → cty.Ty → cty.Value * option error)
    (req : UpgradeReq.t) (val : cty.Value) (err : option error) :
  Unmarshal (UpgradeReq.RawStateJSON req)
    (cty.Object (list_to_map [
       ("input", cty.DynamicPseudoType); ("output", cty.DynamicPseudoType);
       ("trigger", cty.DynamicPseudoType); ("uuid", cty.String)
     ])) = (val, err) →
  upgradeDataResourceState Unmarshal req
  = match err with
    | Some err => UpgradeResp.mk cty.NilVal [tfdiags.nativeError err]
    | None => UpgradeResp.mk val []
    end.
Proof.
  intros Hdecode. unfold upgradeDataResourceState.
  replace (configschema.ImpliedType (providers.Block dataResourceSchema))
    with (cty.Object (list_to_map [
       ("input", cty.DynamicPseudoType); ("output", cty.DynamicPseudoType);
       ("trigger", cty.DynamicPseudoType); ("uuid", cty.String)
     ])) by (vm_compute; reflexivity).
  rewrite Hdecode. by destruct err.
Qed.

(** * The examples of section 8 of the specification *)

(** Trigger change: [{input:a, trigger:t1, uuid:U, output:a}] against
    [{input:a, trigger:t2}]. *)
Lemma plan_trigger_changed_witness :
  ∃ resp,
    planDataResourceChange
      (PlanReq.mk
         (stateObject (cty.StringVal "a") (cty.StringVal "a")
            (cty.StringVal "t1") (cty.StringVal "U"))
         (stateObject (cty.StringVal "a") (cty.StringVal "a")
            (cty.StringVal "t2") (cty.StringVal "U"))) = Some resp
    ∧ PlanResp.RequiresReplace resp = [cty.GetAttrPath "trigger"]
    ∧ cty.GetAttr (PlanResp.PlannedState resp) "uuid"
      = Some (cty.UnknownVal cty.String)
    ∧ cty.GetAttr (PlanResp.PlannedState resp) "output"
      = Some (cty.UnknownVal cty.String).
Proof.
  destruct (plan_trigger_changed
              (stateObject (cty.StringVal "a") (cty.StringVal "a")
                 (cty.StringVal "t1") (cty.StringVal "U"))
              (stateAttrs (cty.StringVal "a") (cty.StringVal "a")
                 (cty.StringVal "t2") (cty.StringVal "U"))
              (cty.StringVal "a") (cty.StringVal "t2") (cty.StringVal "t1"))
    as (resp & Hresp & Hreplace & Huuid & Houtput & _);
    [reflexivity..|].
  exists resp. split_and!; assumption.
Defined.

(** Create, with an input and with a null input. *)
Lemma plan_create_witness :
  (∃ resp,
     planDataResourceChange
       (PlanReq.mk nullState
          (stateObject (cty.StringVal "a") dynamicNull (cty.StringVal "t")
             (cty.NullVal cty.String))) = Some resp
     ∧ PlanResp.RequiresReplace resp = []
     ∧ cty.GetAttr (PlanResp.PlannedState resp) "uuid"
       = Some (cty.UnknownVal cty.String)
     ∧ cty.GetAttr (PlanResp.PlannedState resp) "output"
       = Some (cty.UnknownVal cty.String))
  ∧ (∃ resp,
       planDataResourceChange
         (PlanReq.mk nullState
            (stateObject dynamicNull dynamicNull (cty.StringVal "t")
               (cty.NullVal cty.String))) = Some resp
       ∧ cty.GetAttr (PlanResp.PlannedState resp) "output" = Some dynamicNull).
Proof.
  split.
  - destruct (plan_create nullState
                (stateAttrs (cty.StringVal "a") dynamicNull (cty.StringVal "t")
                   (cty.NullVal cty.String))
                (cty.StringVal "a") (cty.StringVal "t"))
      as (resp & Hresp & Hreplace & Huuid & Houtput & _);
      [reflexivity..|].
    exists resp. split_and!; try assumption. by apply Houtput.
  - destruct (plan_create nullState
                (stateAttrs dynamicNull dynamicNull (cty.StringVal "t")
                   (cty.NullVal cty.String))
                dynamicNull (cty.StringVal "t"))
      as (resp & Hresp & _ & _ & _ & Houtput);
      [reflexivity..|].
    exists resp. split; [assumption|].
    destruct (Houtput eq_refl) as [_ Hnull].
    by destruct (Hnull dynamicNull eq_refl eq_refl).
Defined.

(** Input-only change: [{input:a, trigger:t, uuid:U, output:a}] against
    [{input:b, trigger:t}]. *)
Lemma plan_input_changed_witness :
  ∃ resp,
    planDataResourceChange
      (PlanReq.mk
         (stateObject (cty.StringVal "a") (cty.StringVal "a")
            (cty.StringVal "t") (cty.StringVal "U"))
         (stateObject (cty.StringVal "b") (cty.StringVal "a")
            (cty.StringVal "t") (cty.StringVal "U"))) = Some resp
    ∧ PlanResp.RequiresReplace resp = []
    ∧ cty.GetAttr (PlanResp.PlannedState resp) "output"
      = Some (cty.UnknownVal cty.String)
    ∧ cty.GetAttr (PlanResp.PlannedState resp) "uuid"
      = Some (cty.StringVal "U").
Proof.
  destruct (plan_input_changed
              (stateObject (cty.StringVal "a") (cty.StringVal "a")
                 (cty.StringVal "t") (cty.StringVal "U"))
              (stateAttrs (cty.StringVal "b") (cty.StringVal "a")
                 (cty.StringVal "t") (cty.StringVal "U"))
              (cty.StringVal "b") (cty.StringVal "t")
              (cty.StringVal "a") (cty.StringVal "t"))
    as (resp & Hresp & Hreplace & Houtput & Huuid & _);
    [reflexivity..|].
  exists resp. split_and!; assumption.
Defined.

(** No change. *)
Lemma plan_no_change_witness :
  planDataResourceChange
    (PlanReq.mk
       (stateObject (cty.StringVal "a") (cty.StringVal "a")
          (cty.StringVal "t") (cty.StringVal "U"))
       (stateObject (cty.StringVal "a") (cty.StringVal "a")
          (cty.StringVal "t") (cty.StringVal "U")))
  = Some (PlanResp.mk
            (stateObject (cty.StringVal "a") (cty.StringVal "a")
               (cty.StringVal "t") (cty.StringVal "U")) [] []).
Proof.
  apply (plan_no_change
           (stateAttrs (cty.StringVal "a") (cty.StringVal "a")
              (cty.StringVal "t") (cty.StringVal "U")));
    eexists; reflexivity.
Defined.

(** Apply resolves unknowns. *)
Lemma apply_resolves_output_witness :
  ∃ resp,
    applyDataResourceChange workingGenerator None
      (ApplyReq.mk
         (stateObject (cty.StringVal "a") (cty.UnknownVal cty.String)
            (cty.StringVal "t") (cty.UnknownVal cty.String))) = Some resp
    ∧ cty.GetAttr (ApplyResp.NewState resp) "output" = Some (cty.StringVal "a").
Proof.
  apply (apply_resolves_output workingGenerator None
           (stateAttrs (cty.StringVal "a") (cty.UnknownVal cty.String)
              (cty.StringVal "t") (cty.UnknownVal cty.String))
           (cty.StringVal "a") (cty.UnknownVal cty.String));
    try reflexivity.
  eexists; reflexivity.
Defined.

(** Apply with an unknown input. *)
Lemma apply_copies_input_verbatim_witness :
  ∃ resp,
    applyDataResourceChange workingGenerator None
      (ApplyReq.mk
         (stateObject cty.DynamicVal cty.DynamicVal
            (cty.StringVal "t") (cty.StringVal "U"))) = Some resp
    ∧ cty.GetAttr (ApplyResp.NewState resp) "output" = Some cty.DynamicVal
    ∧ cty.IsKnown cty.DynamicVal = false.
Proof.
  destruct (apply_copies_input_verbatim workingGenerator None
              (stateAttrs cty.DynamicVal cty.DynamicVal
                 (cty.StringVal "t") (cty.StringVal "U"))
              cty.DynamicVal cty.DynamicVal)
    as (resp & Hresp & Houtput & _);
    [reflexivity|reflexivity|eexists; reflexivity|reflexivity|].
  exists resp. split_and!; try assumption. reflexivity.
Defined.

(** Apply with generator failure, on the planned state of a create. *)
Lemma apply_generator_failure_witness :
  ∃ resp,
    applyDataResourceChange failingGenerator None
      (ApplyReq.mk
         (stateObject (cty.StringVal "a") (cty.UnknownVal cty.String)
            (cty.StringVal "t") (cty.UnknownVal cty.String))) = Some resp
    ∧ ApplyResp.Diagnostics resp
      = [tfdiags.AttributeValue tfdiags.Error "Error generating uuid"
           "failed to read random bytes" (cty.GetAttrPath "uuid")]
    ∧ cty.GetAttr (ApplyResp.NewState resp) "uuid" = Some (cty.StringVal "")
    ∧ cty.GetAttr (ApplyResp.NewState resp) "input" = Some (cty.StringVal "a")
    ∧ cty.GetAttr (ApplyResp.NewState resp) "trigger" = Some (cty.StringVal "t").
Proof.
  destruct (apply_generator_failure failingGenerator None
              (stateAttrs (cty.StringVal "a") (cty.UnknownVal cty.String)
                 (cty.StringVal "t") (cty.UnknownVal cty.String))
              (cty.StringVal "a") (cty.UnknownVal cty.String)
              (cty.UnknownVal cty.String) "" "failed to read random bytes")
    as (resp & Hresp & Hdiags & (final & Huuid & -> & _) & Hrest);
    [reflexivity..|].
  exists resp. split_and!; try assumption.
  - by apply Hrest.
  - by apply Hrest.
Defined.

(** C2, as the specification states it, fails on the planned state of a
    create: with a failing generator the [uuid] of the final state is the
    known empty string, not an unknown. *)
Lemma apply_generator_failure_uuid_known :
  ∃ resp,
    applyDataResourceChange failingGenerator None
      (ApplyReq.mk
         (stateObject (cty.StringVal "a") (cty.UnknownVal cty.String)
            (cty.StringVal "t") (cty.UnknownVal cty.String))) = Some resp
    ∧ ApplyResp.Diagnostics resp ≠ []
    ∧ cty.GetAttr (ApplyResp.NewState resp) "uuid" = Some (cty.StringVal "")
    ∧ ¬ ∃ final,
          cty.GetAttr (ApplyResp.NewState resp) "uuid" = Some final
          ∧ cty.IsKnown final = false.
Proof.
  eexists. split; [vm_compute; reflexivity|]. split_and!.
  - discriminate.
  - reflexivity.
  - intros (final & Hfinal & Hunknown).
    vm_compute in Hfinal. by simplify_eq.
Qed.

(** Destroy round trip. *)
Lemma destroy_round_trip_witness :
  planDataResourceChange
    (PlanReq.mk
       (stateObject (cty.StringVal "a") (cty.StringVal "a")
          (cty.StringVal "t") (cty.StringVal "U")) nullState)
  = Some (PlanResp.mk nullState [] [])
  ∧ applyDataResourceChange workingGenerator None (ApplyReq.mk nullState)
    = Some (ApplyResp.mk nullState []).
Proof.
  apply (destroy_round_trip workingGenerator None
           (stateObject (cty.StringVal "a") (cty.StringVal "a")
              (cty.StringVal "t") (cty.StringVal "U")) nullState nullState);
    reflexivity.
Defined.

(** Validation: a null configuration, and a configuration that sets
    [uuid]. *)
Lemma validate_read_only_witness :
  validateDataResourceConfig (ValidateReq.mk nullState)
  = Some (ValidateResp.mk [])
  ∧ validateDataResourceConfig
      (ValidateReq.mk
         (stateObject (cty.StringVal "a") dynamicNull dynamicNull
            (cty.StringVal "U")))
    = Some (ValidateResp.mk
              [tfdiags.nativeError (fmt.q "uuid" +:+ " attribute is read-only")]).
Proof.
  split.
  - by apply (proj1 (validate_read_only nullState dynamicNull dynamicNull)).
  - destruct (proj2 (validate_read_only
                       (stateObject (cty.StringVal "a") dynamicNull dynamicNull
                          (cty.StringVal "U"))
                       (cty.StringVal "U") dynamicNull))
      as (resp & -> & Hdiags & _); [reflexivity..|].
    destruct resp as [diags]. simpl in Hdiags. by rewrite Hdiags.
Defined.

(** Upgrade: an unreadable state and a readable one. *)
Lemma upgrade_decodes_witness :
  upgradeDataResourceState exampleUnmarshal (UpgradeReq.mk 0 [])
  = UpgradeResp.mk cty.NilVal
      [tfdiags.nativeError "unexpected end of JSON input"]
  ∧ upgradeDataResourceState exampleUnmarshal (UpgradeReq.mk 0 [Byte.x7b; Byte.x7d])
    = UpgradeResp.mk nullState [].
Proof.
  split.
  - by apply (upgrade_decodes exampleUnmarshal (UpgradeReq.mk 0 []) cty.NilVal
                (Some "unexpected end of JSON input")).
  - by apply (upgrade_decodes exampleUnmarshal
                (UpgradeReq.mk 0 [Byte.x7b; Byte.x7d]) nullState None).
Defined.

(** * Further properties of the planner and the applier *)

(** ** The planner, branch by branch

    Whenever the plan of a proposed object returns, the proposed object holds
    [input] and [trigger] and the response is the one of exactly one branch
    of the switch. *)
Lemma plan_inv (prior : cty.Value) (attrs : gmap string cty.Value)
    (resp : PlanResp.t) :
  planDataResourceChange (PlanReq.mk prior (cty.ObjectVal attrs)) = Some resp →
  ∃ input trigger,
    attrs !! "input" = Some input ∧ attrs !! "trigger" = Some trigger ∧
    ((cty.IsNull prior = true ∧
      resp = PlanResp.mk
               (cty.ObjectVal
                  (if cty.IsNull input
                   then <["uuid" := cty.UnknownVal cty.String]> attrs
                   else <["output" := cty.UnknownVal (cty.TypeOf input)]>
                          (<["uuid" := cty.UnknownVal cty.String]> attrs)))
               [] [])
     ∨ (cty.IsNull prior = false ∧
        (∃ priorTrigger, cty.GetAttr prior "trigger" = Some priorTrigger
                         ∧ priorTrigger ≠ trigger) ∧
        resp = PlanResp.mk
                 (cty.ObjectVal
                    (<["output" := if cty.IsNull input
                                   then cty.NullVal cty.DynamicPseudoType
                                   else cty.UnknownVal (cty.TypeOf input)]>
                       (<["uuid" := cty.UnknownVal cty.String]> attrs)))
                 [cty.GetAttrPath "trigger"] [])
     ∨ (cty.IsNull prior = false ∧
        cty.GetAttr prior "trigger" = Some trigger ∧
        (∃ priorInput, cty.GetAttr prior "input" = Some priorInput
                       ∧ priorInput ≠ input) ∧
        resp = PlanResp.mk
                 (cty.ObjectVal
                    (<["output" := cty.UnknownVal (cty.TypeOf input)]> attrs))
                 [] [])
     ∨ (cty.IsNull prior = false ∧
        cty.GetAttr prior "trigger" = Some trigger ∧
        cty.GetAttr prior "input" = Some input ∧
        resp = PlanResp.mk (cty.ObjectVal attrs) [] [])).
Proof.
  intros Hplan.
  destruct (attrs !! "input") as [input|] eqn:Hinput; last first.
  { unfold planDataResourceChange in Hplan. simpl in Hplan.
    by rewrite Hinput in Hplan. }
  destruct (attrs !! "trigger") as [trigger|] eqn:Htrigger; last first.
  { unfold planDataResourceChange in Hplan. simpl in Hplan.
    by rewrite Hinput, Htrigger in Hplan. }
  exists input, trigger. split_and!; try done.
  destruct (cty.IsNull prior) eqn:Hprior.
  { left. split; [done|].
    rewrite (plan_create_eq prior attrs input trigger) in Hplan by done.
    by simplify_eq. }
  right.
  destruct (cty.GetAttr prior "trigger") as [priorTrigger|] eqn:Hpt; last first.
  { unfold planDataResourceChange in Hplan. simpl in Hplan.
    rewrite Hinput, Htrigger in Hplan. simpl in Hplan.
    by rewrite Hprior, Hpt in Hplan. }
  destruct (cty.RawEquals priorTrigger trigger) eqn:Heq.
  2:{ left. split; [done|].
      rewrite (plan_replace_eq prior attrs input trigger Hinput Htrigger
                 priorTrigger) in Hplan by done.
      apply RawEquals_false in Heq. split; [by eexists|]. by simplify_eq. }
  right. pose proof Heq as ->%RawEquals_true.
  destruct (cty.GetAttr prior "input") as [priorInput|] eqn:Hpi; last first.
  { unfold planDataResourceChange in Hplan. simpl in Hplan.
    rewrite Hinput, Htrigger in Hplan. simpl in Hplan.
    rewrite Hprior, Hpt in Hplan. simpl in Hplan.
    by rewrite Heq, Hpi in Hplan. }
  destruct (cty.RawEquals priorInput input) eqn:Heq'.
  - right. apply RawEquals_true in Heq' as ->.
    rewrite (plan_unchanged_eq prior attrs input trigger Hinput Htrigger
               trigger input) in Hplan by (done || apply RawEquals_refl).
    split_and!; try done. by simplify_eq.
  - left.
    rewrite (plan_input_eq prior attrs input trigger Hinput Htrigger
               trigger priorInput) in Hplan by done.
    apply RawEquals_false in Heq'. split_and!; try done; [by eexists|].
    by simplify_eq.
Qed.

(** A proposed state that is neither null nor a known object cannot be
    planned. *)
Lemma plan_proposed_shape (prior proposed : cty.Value) (resp : PlanResp.t) :
  planDataResourceChange (PlanReq.mk prior proposed) = Some resp →
  cty.IsNull proposed = true ∨ ∃ attrs, proposed = cty.ObjectVal attrs.
Proof.
  intros Hplan. destruct proposed; try (by left); try (by right; eexists);
    discriminate.
Qed.

(** The attribute names of the schema. *)
Lemma schema_dom :
  dom (configschema.Attributes (providers.Block dataResourceSchema))
  = ({["input"; "output"; "trigger"; "uuid"]} : gset string).
Proof.
  unfold dataResourceSchema. simpl.
  rewrite !dom_insert_L, dom_empty_L. set_solver.
Qed.

Lemma isResourceState_lookup (attrs : gmap string cty.Value) (name : string) :
  isResourceState (cty.ObjectVal attrs) = true →
  name ∈ ({["input"; "output"; "trigger"; "uuid"]} : gset string) →
  is_Some (attrs !! name).
Proof.
  intros Hshape%bool_decide_eq_true Hname.
  apply elem_of_dom. by rewrite Hshape, schema_dom.
Qed.

Lemma isResourceState_insert (attrs : gmap string cty.Value) (name : string)
    (val : cty.Value) :
  name ∈ ({["input"; "output"; "trigger"; "uuid"]} : gset string) →
  isResourceState (cty.ObjectVal attrs) = true →
  isResourceState (cty.ObjectVal (<[name := val]> attrs)) = true.
Proof.
  intros Hname Hshape%bool_decide_eq_true. apply bool_decide_eq_true.
  rewrite dom_insert_L, Hshape, schema_dom.
  apply subseteq_union_1_L. by apply singleton_subseteq_l.
Qed.

(** Two attribute maps built by writes to the same keys are equal. *)
Ltac same_writes :=
  apply map_eq; intros ?; rewrite ?lookup_insert;
  repeat case_decide; simplify_eq; done.

(** ** What the planner keeps *)

(** X1. The planner rewrites nothing but [uuid] and [output]: whenever a
    plan returns, every other attribute of the planned state, [input] and
    [trigger] among them, reads as it does in the proposed state. *)
Theorem plan_keeps_user_attributes (prior proposed : cty.Value)
    (resp : PlanResp.t) (name : string) :
  planDataResourceChange (PlanReq.mk prior proposed) = Some resp →
  name ≠ "uuid" →
  name ≠ "output" →
  cty.GetAttr (PlanResp.PlannedState resp) name = cty.GetAttr proposed name.
Proof.
  intros Hplan Huuid Houtput.
  destruct (plan_proposed_shape _ _ _ Hplan) as [Hnull|[attrs ->]].
  { unfold planDataResourceChange in Hplan. simpl in Hplan.
    rewrite Hnull in Hplan. by simplify_eq. }
  destruct (plan_inv _ _ _ Hplan)
    as (input & trigger & _ & _ &
        [[_ ->]|[(_ & _ & ->)|[(_ & _ & _ & ->)|(_ & _ & _ & ->)]]]);
    simpl; [destruct (cty.IsNull input)|..];
    by rewrite ?lookup_insert_ne.
Qed.

(** X2. The planner reports no diagnostics, and the only path it ever marks
    for replacement is [trigger], at most once. *)
Theorem plan_reports_nothing (prior proposed : cty.Value) (resp : PlanResp.t) :
  planDataResourceChange (PlanReq.mk prior proposed) = Some resp →
  PlanResp.Diagnostics resp = []
  ∧ (PlanResp.RequiresReplace resp = []
     ∨ PlanResp.RequiresReplace resp = [cty.GetAttrPath "trigger"]).
Proof.
  intros Hplan.
  destruct (plan_proposed_shape _ _ _ Hplan) as [Hnull|[attrs ->]].
  { unfold planDataResourceChange in Hplan. simpl in Hplan.
    rewrite Hnull in Hplan. simplify_eq. by split; [|left]. }
  destruct (plan_inv _ _ _ Hplan)
    as (input & trigger & _ & _ &
        [[_ ->]|[(_ & _ & ->)|[(_ & _ & _ & ->)|(_ & _ & _ & ->)]]]);
    simpl; split; auto.
Qed.

(** X3. Replacement is planned exactly when there is a prior state and its
    [trigger] differs from the proposed one. *)
Theorem plan_replaces_iff_trigger_differs (prior : cty.Value)
    (attrs : gmap string cty.Value) (resp : PlanResp.t) :
  planDataResourceChange (PlanReq.mk prior (cty.ObjectVal attrs)) = Some resp →
  PlanResp.RequiresReplace resp = [cty.GetAttrPath "trigger"]
  ↔ cty.IsNull prior = false
    ∧ cty.GetAttr prior "trigger" ≠ attrs !! "trigger".
Proof.
  intros Hplan.
  destruct (plan_inv _ _ _ Hplan)
    as (input & trigger & _ & Htrigger &
        [[Hprior ->]|[(Hprior & (pt & Hpt & Hne) & ->)
                     |[(Hprior & Hpt & _ & ->)|(Hprior & Hpt & _ & ->)]]]);
    simpl; split; try done.
  - intros [? _]. congruence.
  - intros _. split; [done|]. congruence.
  - intros [_ Hne]. congruence.
  - intros [_ Hne]. congruence.
Qed.

(** X4. An in-place update never touches the identity: with a prior state
    whose [trigger] equals the proposed one, the planned [uuid] is the
    proposed [uuid] and nothing is marked for replacement, whether or not
    [input] changed. *)
Theorem plan_in_place_keeps_uuid (prior : cty.Value)
    (attrs : gmap string cty.Value) (resp : PlanResp.t) :
  planDataResourceChange (PlanReq.mk prior (cty.ObjectVal attrs)) = Some resp →
  cty.IsNull prior = false →
  cty.GetAttr prior "trigger" = attrs !! "trigger" →
  cty.GetAttr (PlanResp.PlannedState resp) "uuid" = attrs !! "uuid"
  ∧ PlanResp.RequiresReplace resp = [].
Proof.
  intros Hplan Hprior Hsame.
  destruct (plan_inv _ _ _ Hplan)
    as (input & trigger & _ & Htrigger &
        [[Hnull ->]|[(_ & (pt & Hpt & Hne) & ->)
                    |[(_ & _ & _ & ->)|(_ & _ & _ & ->)]]]);
    simpl.
  - congruence.
  - congruence.
  - by rewrite lookup_insert_ne.
  - done.
Qed.

(** X5. Planning is idempotent in the proposed state: planning the planned
    state again, against the same prior state, returns the same response. *)
Theorem plan_idempotent (prior proposed : cty.Value) (resp : PlanResp.t) :
  planDataResourceChange (PlanReq.mk prior proposed) = Some resp →
  planDataResourceChange (PlanReq.mk prior (PlanResp.PlannedState resp))
  = Some resp.
Proof.
  intros Hplan.
  destruct (plan_proposed_shape _ _ _ Hplan) as [Hnull|[attrs ->]].
  { pose proof Hplan as Hplan'.
    unfold planDataResourceChange in Hplan'. simpl in Hplan'.
    rewrite Hnull in Hplan'. by simplify_eq. }
  destruct (plan_inv _ _ _ Hplan)
    as (input & trigger & Hinput & Htrigger &
        [[Hprior ->]|[(Hprior & (pt & Hpt & Hne) & ->)
                     |[(Hprior & Hpt & (priorInput & Hpi & Hne) & ->)
                      |(Hprior & Hpt & Hpi & ->)]]]);
    simpl.
  - rewrite (plan_create_eq prior _ input trigger); try done.
    + destruct (cty.IsNull input); do 3 f_equal; same_writes.
    + destruct (cty.IsNull input); by rewrite ?lookup_insert_ne.
    + destruct (cty.IsNull input); by rewrite ?lookup_insert_ne.
  - rewrite (plan_replace_eq prior _ input trigger) with (priorTrigger := pt);
      try done.
    + do 3 f_equal. same_writes.
    + by rewrite !lookup_insert_ne.
    + by rewrite !lookup_insert_ne.
    + by apply RawEquals_false.
  - rewrite (plan_input_eq prior _ input trigger)
      with (priorTrigger := trigger) (priorInput := priorInput); try done.
    + do 3 f_equal. same_writes.
    + by rewrite !lookup_insert_ne.
    + by rewrite !lookup_insert_ne.
    + apply RawEquals_refl.
    + by apply RawEquals_false.
  - done.
Qed.

(** X6. On states of the schema's shape the planner does not panic, and the
    planned state is of that shape again. *)
Theorem plan_total_on_resource_states (prior proposed : cty.Value) :
  isResourceState prior = true →
  isResourceState proposed = true →
  ∃ resp,
    planDataResourceChange (PlanReq.mk prior proposed) = Some resp
    ∧ isResourceState (PlanResp.PlannedState resp) = true.
Proof.
  intros Hprior Hproposed.
  destruct proposed as [ty| | | | | |attrs]; try discriminate.
  { eexists. split; [reflexivity|done]. }
  destruct (isResourceState_lookup attrs "input" Hproposed) as [input Hinput];
    [set_solver|].
  destruct (isResourceState_lookup attrs "trigger" Hproposed)
    as [trigger Htrigger]; [set_solver|].
  destruct prior as [pty| | | | | |pattrs]; try discriminate.
  { eexists. split; [by apply (plan_create_eq _ attrs input trigger)|].
    simpl. destruct (cty.IsNull input);
      repeat apply isResourceState_insert; try done; set_solver. }
  destruct (isResourceState_lookup pattrs "input" Hprior) as [pi Hpi];
    [set_solver|].
  destruct (isResourceState_lookup pattrs "trigger" Hprior) as [pt Hpt];
    [set_solver|].
  destruct (cty.RawEquals pt trigger) eqn:Heq.
  2:{ eexists. split;
        [by apply (plan_replace_eq _ attrs input trigger Hinput Htrigger pt)|].
      simpl. repeat apply isResourceState_insert; try done; set_solver. }
  destruct (cty.RawEquals pi input) eqn:Heq'.
  - eexists. split;
      [by apply (plan_unchanged_eq _ attrs input trigger Hinput Htrigger pt pi)|].
    done.
  - eexists. split;
      [by apply (plan_input_eq _ attrs input trigger Hinput Htrigger pt pi)|].
    simpl. apply isResourceState_insert; try done; set_solver.
Qed.

(** X7. A trigger that is not yet known forces replacement: with a prior
    state whose [trigger] is known and a proposed [trigger] that is unknown,
    the plan marks [trigger] for replacement and the planned [uuid] is
    unknown. *)
Theorem plan_unknown_trigger_replaces (prior : cty.Value)
    (attrs : gmap string cty.Value) (input trigger priorTrigger : cty.Value) :
  cty.IsNull prior = false →
  cty.GetAttr prior "trigger" = Some priorTrigger →
  attrs !! "input" = Some input →
  attrs !! "trigger" = Some trigger →
  cty.IsKnown priorTrigger = true →
  cty.IsKnown trigger = false →
  ∃ resp,
    planDataResourceChange (PlanReq.mk prior (cty.ObjectVal attrs)) = Some resp
    ∧ PlanResp.RequiresReplace resp = [cty.GetAttrPath "trigger"]
    ∧ cty.GetAttr (PlanResp.PlannedState resp) "uuid"
      = Some (cty.UnknownVal cty.String).
Proof.
  intros Hprior Hpt Hinput Htrigger Hknown Hunknown.
  eexists. split.
  { apply (plan_replace_eq _ attrs input trigger Hinput Htrigger priorTrigger);
      try done.
    apply RawEquals_false. intros ->. congruence. }
  simpl. split; [done|].
  rewrite lookup_insert_ne by done. apply lookup_insert_eq.
Qed.

(** ** The applier, step by step

    Whenever the application of a planned object returns, the object holds
    [output] and [uuid] (and [input], if [output] is unknown), and the
    response is the one the two steps build. *)
Lemma apply_inv (GenerateUUID : unit → string * option error)
    (testUUIDHook : option (unit → string)) (attrs : gmap string cty.Value)
    (resp : ApplyResp.t) :
  applyDataResourceChange GenerateUUID testUUIDHook
    (ApplyReq.mk (cty.ObjectVal attrs)) = Some resp →
  ∃ output uuid newState,
    attrs !! "output" = Some output ∧ attrs !! "uuid" = Some uuid ∧
    (if cty.IsKnown output then newState = attrs
     else ∃ input, attrs !! "input" = Some input
                   ∧ newState = <["output" := input]> attrs) ∧
    resp = if cty.IsKnown uuid
           then ApplyResp.mk (cty.ObjectVal newState) []
           else ApplyResp.mk
                  (cty.ObjectVal
                     (<["uuid" := cty.StringVal
                                    match testUUIDHook with
                                    | Some hook => hook ()
                                    | None => (GenerateUUID ()).1
                                    end]> newState))
                  match (GenerateUUID ()).2 with
                  | Some err =>
                      [tfdiags.AttributeValue tfdiags.Error
                         "Error generating uuid" err (cty.GetAttrPath "uuid")]
                  | None => []
                  end.
Proof.
  unfold applyDataResourceChange. simpl. intros Happly.
  destruct (attrs !! "output") as [output|] eqn:Houtput; [|done].
  destruct (attrs !! "uuid") as [uuid|] eqn:Huuid; last first.
  { simpl in Happly. destruct (cty.IsKnown output); simpl in Happly;
      [done|]. by destruct (attrs !! "input"). }
  simpl in Happly. exists output, uuid.
  destruct (cty.IsKnown output); simpl in Happly.
  - exists attrs. split_and!; try done.
    destruct (cty.IsKnown uuid); simpl in Happly; [by simplify_eq|].
    destruct (GenerateUUID ()) as [uuidString [err|]]; by simplify_eq.
  - destruct (attrs !! "input") as [input|] eqn:Hinput; [|done].
    simpl in Happly. exists (<["output" := input]> attrs).
    split_and!; try done; [by eexists|].
    destruct (cty.IsKnown uuid); simpl in Happly; [by simplify_eq|].
    destruct (GenerateUUID ()) as [uuidString [err|]]; by simplify_eq.
Qed.

(** A planned state that is neither null nor a known object cannot be
    applied. *)
Lemma apply_planned_shape (GenerateUUID : unit → string * option error)
    (testUUIDHook : option (unit → string)) (planned : cty.Value)
    (resp : ApplyResp.t) :
  applyDataResourceChange GenerateUUID testUUIDHook (ApplyReq.mk planned)
  = Some resp →
  (cty.IsNull planned = true ∧ resp = ApplyResp.mk planned [])
  ∨ ∃ attrs, planned = cty.ObjectVal attrs.
Proof.
  intros Happly. destruct planned; try discriminate;
    try (by right; eexists).
  left. unfold applyDataResourceChange in Happly. simpl in Happly.
  by simplify_eq.
Qed.

(** ** What the applier keeps *)

(** X8. Apply never changes a value the plan had promised: every attribute
    that is known in the planned state reads the same in the final
    state. *)
Theorem apply_preserves_known (GenerateUUID : unit → string * option error)
    (testUUIDHook : option (unit → string)) (planned : cty.Value)
    (resp : ApplyResp.t) (name : string) (val : cty.Value) :
  applyDataResourceChange GenerateUUID testUUIDHook (ApplyReq.mk planned)
  = Some resp →
  cty.GetAttr planned name = Some val →
  cty.IsKnown val = true →
  cty.GetAttr (ApplyResp.NewState resp) name = Some val.
Proof.
  intros Happly Hval Hknown.
  destruct (apply_planned_shape _ _ _ _ Happly) as [[_ ->]|[attrs ->]];
    [done|].
  simpl in Hval.
  destruct (apply_inv _ _ _ _ Happly)
    as (output & uuid & newState & Houtput & Huuid & HnewState & ->).
  assert (newState !! name = Some val) as Hnew.
  { destruct (cty.IsKnown output) eqn:Hout; [by subst|].
    destruct HnewState as (input & _ & ->).
    rewrite lookup_insert_ne; [done|]. intros <-. congruence. }
  destruct (cty.IsKnown uuid) eqn:Hid; simpl; [done|].
  rewrite lookup_insert_ne; [done|]. intros <-. congruence.
Qed.

(** X9. The applier rewrites nothing but [output] and [uuid]: every other
    attribute of the final state, [input] and [trigger] among them, reads
    as it does in the planned state, known or not. *)
Theorem apply_keeps_user_attributes
    (GenerateUUID : unit → string * option error)
    (testUUIDHook : option (unit → string)) (planned : cty.Value)
    (resp : ApplyResp.t) (name : string) :
  applyDataResourceChange GenerateUUID testUUIDHook (ApplyReq.mk planned)
  = Some resp →
  name ≠ "uuid" →
  name ≠ "output" →
  cty.GetAttr (ApplyResp.NewState resp) name = cty.GetAttr planned name.
Proof.
  intros Happly Hnu Hno.
  destruct (apply_planned_shape _ _ _ _ Happly) as [[_ ->]|[attrs ->]];
    [done|].
  destruct (apply_inv _ _ _ _ Happly)
    as (output & uuid & newState & _ & _ & HnewState & ->).
  assert (newState !! name = attrs !! name) as Hnew.
  { destruct (cty.IsKnown output); [by subst|].
    destruct HnewState as (input & _ & ->). by rewrite lookup_insert_ne. }
  destruct (cty.IsKnown uuid); simpl; by rewrite ?lookup_insert_ne.
Qed.

(** X10. After apply the identity is settled: whenever apply returns for a
    planned object, the [uuid] of the final state is known, and it is a
    string whenever the planned [uuid] was unknown. *)
Theorem apply_settles_uuid (GenerateUUID : unit → string * option error)
    (testUUIDHook : option (unit → string)) (attrs : gmap string cty.Value)
    (resp : ApplyResp.t) :
  applyDataResourceChange GenerateUUID testUUIDHook
    (ApplyReq.mk (cty.ObjectVal attrs)) = Some resp →
  ∃ final,
    cty.GetAttr (ApplyResp.NewState resp) "uuid" = Some final
    ∧ cty.IsKnown final = true
    ∧ (∀ uuid, attrs !! "uuid" = Some uuid → cty.IsKnown uuid = false →
         cty.TypeOf final = cty.String).
Proof.
  intros Happly.
  destruct (apply_inv _ _ _ _ Happly)
    as (output & uuid & newState & Houtput & Huuid & HnewState & ->).
  assert (newState !! "uuid" = Some uuid) as Hnew.
  { destruct (cty.IsKnown output); [by subst|].
    destruct HnewState as (input & _ & ->). by rewrite lookup_insert_ne. }
  destruct (cty.IsKnown uuid) eqn:Hid; simpl.
  - exists uuid. split_and!; try done. intros uuid' ? ?. congruence.
  - eexists. split; [apply lookup_insert_eq|]. done.
Qed.

(** X11. The test hook wins over the generator: with a hook set and an
    unknown planned [uuid], the final [uuid] is the hook's string whatever
    the generator returned, and the final state is the same under every
    generator. *)
Theorem apply_hook_overrides (GenerateUUID GenerateUUID' : unit → string * option error)
    (hook : unit → string) (attrs : gmap string cty.Value)
    (uuid : cty.Value) (resp : ApplyResp.t) :
  applyDataResourceChange GenerateUUID (Some hook)
    (ApplyReq.mk (cty.ObjectVal attrs)) = Some resp →
  attrs !! "uuid" = Some uuid →
  cty.IsKnown uuid = false →
  cty.GetAttr (ApplyResp.NewState resp) "uuid"
  = Some (cty.StringVal (hook ()))
  ∧ ∃ resp',
      applyDataResourceChange GenerateUUID' (Some hook)
        (ApplyReq.mk (cty.ObjectVal attrs)) = Some resp'
      ∧ ApplyResp.NewState resp' = ApplyResp.NewState resp.
Proof.
  intros Happly Huuid Hunknown.
  destruct (apply_inv _ _ _ _ Happly)
    as (output & uuid' & newState & Houtput & Huuid' & HnewState & ->).
  assert (uuid' = uuid) as -> by congruence.
  rewrite Hunknown. simpl. split; [apply lookup_insert_eq|].
  unfold applyDataResourceChange. simpl. rewrite Houtput, Huuid. simpl.
  destruct (cty.IsKnown output); simpl.
  - subst. rewrite Hunknown. simpl.
    destruct (GenerateUUID' ()) as [uuidString [err|]]; by eexists.
  - destruct HnewState as (input & -> & ->). simpl.
    rewrite Hunknown. simpl.
    destruct (GenerateUUID' ()) as [uuidString [err|]]; by eexists.
Qed.

(** X12. Apply reports at most one diagnostic, and it reports one exactly
    when the planned [uuid] is unknown and the generator returns an
    error. *)
Theorem apply_diagnostics_iff (GenerateUUID : unit → string * option error)
    (testUUIDHook : option (unit → string)) (attrs : gmap string cty.Value)
    (uuid : cty.Value) (resp : ApplyResp.t) :
  applyDataResourceChange GenerateUUID testUUIDHook
    (ApplyReq.mk (cty.ObjectVal attrs)) = Some resp →
  attrs !! "uuid" = Some uuid →
  (List.length (ApplyResp.Diagnostics resp) ≤ 1)%nat
  ∧ (ApplyResp.Diagnostics resp ≠ []
     ↔ cty.IsKnown uuid = false ∧ is_Some (GenerateUUID ()).2).
Proof.
  intros Happly Huuid.
  destruct (apply_inv _ _ _ _ Happly)
    as (output & uuid' & newState & _ & Huuid' & _ & ->).
  assert (uuid' = uuid) as -> by congruence.
  destruct (cty.IsKnown uuid); simpl.
  - split; [lia|]. split; [done|]. by intros [? _].
  - destruct (GenerateUUID ()) as [uuidString [err|]]; simpl.
    + split; [lia|]. split; [by eauto|done].
    + split; [lia|]. split; [done|]. intros [_ [? ?]]. done.
Qed.

(** X13. The generator and the hook are consulted only for an unknown
    [uuid]: when the planned [uuid] is known, apply returns the same
    response under every generator and every hook, with no diagnostics. *)
Theorem apply_known_uuid_ignores_generator
    (GenerateUUID GenerateUUID' : unit → string * option error)
    (testUUIDHook testUUIDHook' : option (unit → string))
    (attrs : gmap string cty.Value) (uuid : cty.Value) :
  attrs !! "uuid" = Some uuid →
  cty.IsKnown uuid = true →
  applyDataResourceChange GenerateUUID testUUIDHook
    (ApplyReq.mk (cty.ObjectVal attrs))
  = applyDataResourceChange GenerateUUID' testUUIDHook'
      (ApplyReq.mk (cty.ObjectVal attrs))
  ∧ ∀ resp,
      applyDataResourceChange GenerateUUID testUUIDHook
        (ApplyReq.mk (cty.ObjectVal attrs)) = Some resp →
      ApplyResp.Diagnostics resp = [].
Proof.
  intros Huuid Hknown. split.
  - unfold applyDataResourceChange. simpl.
    destruct (attrs !! "output") as [output|]; [|done]. simpl.
    destruct (cty.IsKnown output); simpl.
    + rewrite Huuid. simpl. by rewrite Hknown.
    + destruct (attrs !! "input"); [|done]. simpl.
      rewrite Huuid. simpl. by rewrite Hknown.
  - intros resp Happly.
    destruct (apply_inv _ _ _ _ Happly)
      as (output & uuid' & newState & _ & Huuid' & _ & ->).
    assert (uuid' = uuid) as -> by congruence. by rewrite Hknown.
Qed.

(** X14. A final state is a fixed point of apply: when the planned [input]
    is known, applying the final state again, under any generator and any
    hook, returns it unchanged and without diagnostics. *)
Theorem apply_stable (GenerateUUID GenerateUUID' : unit → string * option error)
    (testUUIDHook testUUIDHook' : option (unit → string))
    (attrs : gmap string cty.Value) (input : cty.Value) (resp : ApplyResp.t) :
  applyDataResourceChange GenerateUUID testUUIDHook
    (ApplyReq.mk (cty.ObjectVal attrs)) = Some resp →
  attrs !! "input" = Some input →
  cty.IsKnown input = true →
  applyDataResourceChange GenerateUUID' testUUIDHook'
    (ApplyReq.mk (ApplyResp.NewState resp))
  = Some (ApplyResp.mk (ApplyResp.NewState resp) []).
Proof.
  intros Happly Hinput Hknown.
  destruct (apply_inv _ _ _ _ Happly)
    as (output & uuid & newState & Houtput & Huuid & HnewState & ->).
  assert (∃ output', newState !! "output" = Some output'
                     ∧ cty.IsKnown output' = true
                     ∧ newState !! "input" = Some input
                     ∧ newState !! "uuid" = Some uuid)
    as (output' & Houtput' & Hknown' & Hinput' & Huuid').
  { destruct (cty.IsKnown output) eqn:Hout.
    - subst. by exists output.
    - destruct HnewState as (input' & Hinput' & ->).
      assert (input' = input) as -> by congruence.
      exists input. rewrite lookup_insert_eq.
      by rewrite !lookup_insert_ne. }
  destruct (cty.IsKnown uuid) eqn:Hid; simpl.
  - by apply (apply_known_unchanged _ _ _ input output' uuid).
  - apply (apply_known_unchanged _ _ _ input output'
             (cty.StringVal match testUUIDHook with
                            | Some hook => hook ()
                            | None => (GenerateUUID ()).1
                            end));
      try done; by rewrite ?lookup_insert_eq, ?lookup_insert_ne.
Qed.

(** X15. On a planned state of the schema's shape the applier does not
    panic, and the final state is of that shape again. *)
Theorem apply_total_on_resource_states
    (GenerateUUID : unit → string * option error)
    (testUUIDHook : option (unit → string)) (planned : cty.Value) :
  isResourceState planned = true →
  ∃ resp,
    applyDataResourceChange GenerateUUID testUUIDHook (ApplyReq.mk planned)
    = Some resp
    ∧ isResourceState (ApplyResp.NewState resp) = true.
Proof.
  intros Hshape.
  destruct planned as [ty| | | | | |attrs]; try discriminate.
  { eexists. split; [reflexivity|done]. }
  destruct (isResourceState_lookup attrs "input" Hshape) as [input Hinput];
    [set_solver|].
  destruct (isResourceState_lookup attrs "output" Hshape)
    as [output Houtput]; [set_solver|].
  destruct (isResourceState_lookup attrs "uuid" Hshape) as [uuid Huuid];
    [set_solver|].
  eexists. split; [by apply (apply_eq _ _ attrs input output uuid)|].
  simpl. destruct (cty.IsKnown uuid), (cty.IsKnown output); simpl;
    repeat apply isResourceState_insert; try done; set_solver.
Qed.

(** ** Plan and apply together *)

Section PlanThenApply.

Variable GenerateUUID : unit → string * option error.
Variable testUUIDHook : option (unit → string).
Variable input : cty.Value.

(** Apply on a planned object whose [uuid] the planner has just set to
    unknown. *)
Lemma apply_after_uuid_reset (planned : gmap string cty.Value)
    (output : cty.Value) :
  planned !! "input" = Some input →
  planned !! "output" = Some output →
  planned !! "uuid" = Some (cty.UnknownVal cty.String) →
  ∃ resp,
    applyDataResourceChange GenerateUUID testUUIDHook
      (ApplyReq.mk (cty.ObjectVal planned)) = Some resp
    ∧ cty.GetAttr (ApplyResp.NewState resp) "uuid"
      = Some (cty.StringVal match testUUIDHook with
                            | Some hook => hook ()
                            | None => (GenerateUUID ()).1
                            end)
    ∧ cty.GetAttr (ApplyResp.NewState resp) "output"
      = Some (if cty.IsKnown output then output else input).
Proof.
  intros Hin Hout Hid. eexists. split.
  { by apply (apply_eq _ _ planned input output (cty.UnknownVal cty.String)). }
  simpl. split; [apply lookup_insert_eq|].
  rewrite lookup_insert_ne by done.
  destruct (cty.IsKnown output); [done|apply lookup_insert_eq].
Qed.

End PlanThenApply.

(** X16. Create, then apply: for a null prior state and a proposed object
    with a non-null [input], the plan needs no replacement, applying the
    planned state succeeds, the final [output] is the proposed [input], and
    the final [uuid] is the string of the hook, or of the generator when no
    hook is set. *)
Theorem create_then_apply (GenerateUUID : unit → string * option error)
    (testUUIDHook : option (unit → string)) (prior : cty.Value)
    (attrs : gmap string cty.Value) (input trigger : cty.Value) :
  cty.IsNull prior = true →
  attrs !! "input" = Some input →
  attrs !! "trigger" = Some trigger →
  cty.IsNull input = false →
  ∃ planResp applyResp,
    planDataResourceChange (PlanReq.mk prior (cty.ObjectVal attrs))
    = Some planResp
    ∧ PlanResp.RequiresReplace planResp = []
    ∧ applyDataResourceChange GenerateUUID testUUIDHook
        (ApplyReq.mk (PlanResp.PlannedState planResp)) = Some applyResp
    ∧ cty.GetAttr (ApplyResp.NewState applyResp) "output" = Some input
    ∧ cty.GetAttr (ApplyResp.NewState applyResp) "uuid"
      = Some (cty.StringVal match testUUIDHook with
                            | Some hook => hook ()
                            | None => (GenerateUUID ()).1
                            end).
Proof.
  intros Hprior Hinput Htrigger Hnonnull.
  destruct (apply_after_uuid_reset GenerateUUID testUUIDHook input
              (<["output" := cty.UnknownVal (cty.TypeOf input)]>
                 (<["uuid" := cty.UnknownVal cty.String]> attrs))
              (cty.UnknownVal (cty.TypeOf input)))
    as (applyResp & Happly & Huuid & Houtput);
    [by rewrite !lookup_insert_ne|apply lookup_insert_eq
    |by rewrite lookup_insert_ne, ?lookup_insert_eq|].
  eexists _, applyResp. split.
  { by apply (plan_create_eq prior attrs input trigger). }
  rewrite Hnonnull. simpl. split_and!; done.
Qed.

(** X17. Replace, then apply: for a prior state whose [trigger] differs from
    the proposed one, applying the planned state mints a new [uuid], the
    string of the hook or of the generator, whatever [uuid] the proposed
    state carried; the final [output] is the proposed [input], or the null
    of the dynamic type when that [input] is null. *)
Theorem replace_then_apply (GenerateUUID : unit → string * option error)
    (testUUIDHook : option (unit → string)) (prior : cty.Value)
    (attrs : gmap string cty.Value) (input trigger priorTrigger : cty.Value) :
  cty.IsNull prior = false →
  cty.GetAttr prior "trigger" = Some priorTrigger →
  attrs !! "input" = Some input →
  attrs !! "trigger" = Some trigger →
  priorTrigger ≠ trigger →
  ∃ planResp applyResp,
    planDataResourceChange (PlanReq.mk prior (cty.ObjectVal attrs))
    = Some planResp
    ∧ PlanResp.RequiresReplace planResp = [cty.GetAttrPath "trigger"]
    ∧ applyDataResourceChange GenerateUUID testUUIDHook
        (ApplyReq.mk (PlanResp.PlannedState planResp)) = Some applyResp
    ∧ cty.GetAttr (ApplyResp.NewState applyResp) "output"
      = Some (if cty.IsNull input
              then cty.NullVal cty.DynamicPseudoType else input)
    ∧ cty.GetAttr (ApplyResp.NewState applyResp) "uuid"
      = Some (cty.StringVal match testUUIDHook with
                            | Some hook => hook ()
                            | None => (GenerateUUID ()).1
                            end).
Proof.
  intros Hprior Hpt Hinput Htrigger Hne.
  destruct (apply_after_uuid_reset GenerateUUID testUUIDHook input
              (<["output" := if cty.IsNull input
                             then cty.NullVal cty.DynamicPseudoType
                             else cty.UnknownVal (cty.TypeOf input)]>
                 (<["uuid" := cty.UnknownVal cty.String]> attrs))
              (if cty.IsNull input
               then cty.NullVal cty.DynamicPseudoType
               else cty.UnknownVal (cty.TypeOf input)))
    as (applyResp & Happly & Huuid & Houtput);
    [by rewrite !lookup_insert_ne|apply lookup_insert_eq
    |by rewrite lookup_insert_ne, ?lookup_insert_eq|].
  eexists _, applyResp. split.
  { apply (plan_replace_eq prior attrs input trigger Hinput Htrigger
             priorTrigger); try done. by apply RawEquals_false. }
  simpl. split_and!; try done.
  rewrite Houtput. by destruct (cty.IsNull input).
Qed.

(** X18. Update in place, then apply: for a prior state with the proposed
    [trigger] and another [input], and a proposed [uuid] that is known,
    applying the planned state keeps that [uuid], stores the new [input] in
    [output], and reports no diagnostics, even under a generator that
    fails. *)
Theorem update_then_apply (GenerateUUID : unit → string * option error)
    (testUUIDHook : option (unit → string)) (prior : cty.Value)
    (attrs : gmap string cty.Value) (input trigger priorInput uuid : cty.Value) :
  cty.IsNull prior = false →
  cty.GetAttr prior "trigger" = Some trigger →
  cty.GetAttr prior "input" = Some priorInput →
  attrs !! "input" = Some input →
  attrs !! "trigger" = Some trigger →
  attrs !! "uuid" = Some uuid →
  priorInput ≠ input →
  cty.IsKnown uuid = true →
  ∃ planResp applyResp,
    planDataResourceChange (PlanReq.mk prior (cty.ObjectVal attrs))
    = Some planResp
    ∧ PlanResp.RequiresReplace planResp = []
    ∧ applyDataResourceChange GenerateUUID testUUIDHook
        (ApplyReq.mk (PlanResp.PlannedState planResp)) = Some applyResp
    ∧ cty.GetAttr (ApplyResp.NewState applyResp) "output" = Some input
    ∧ cty.GetAttr (ApplyResp.NewState applyResp) "uuid" = Some uuid
    ∧ ApplyResp.Diagnostics applyResp = [].
Proof.
  intros Hprior Hpt Hpi Hinput Htrigger Huuid Hne Hknown.
  eexists _, _. split.
  { apply (plan_input_eq prior attrs input trigger Hinput Htrigger
             trigger priorInput); try done.
    - apply RawEquals_refl.
    - by apply RawEquals_false. }
  simpl. split; [done|]. split.
  { apply (apply_eq _ _ _ input (cty.UnknownVal (cty.TypeOf input)) uuid).
    - by rewrite lookup_insert_ne.
    - apply lookup_insert_eq.
    - by rewrite lookup_insert_ne. }
  simpl. rewrite Hknown. simpl. split_and!; try done.
  - apply lookup_insert_eq.
  - by rewrite !lookup_insert_ne.
Qed.

(** X19. A refresh shows no drift: planning a known state object against
    what [readDataResourceState] returns for it proposes that object
    unchanged, with no replacement. *)
Theorem read_then_plan_no_change (attrs : gmap string cty.Value) :
  is_Some (attrs !! "input") →
  is_Some (attrs !! "trigger") →
  planDataResourceChange
    (PlanReq.mk
       (ReadResp.NewState
          (readDataResourceState (ReadReq.mk (cty.ObjectVal attrs))))
       (cty.ObjectVal attrs))
  = Some (PlanResp.mk (cty.ObjectVal attrs) [] [])
  ∧ ReadResp.Diagnostics
      (readDataResourceState (ReadReq.mk (cty.ObjectVal attrs))) = [].
Proof.
  intros [input Hinput] [trigger Htrigger]. split; [|done].
  apply (plan_unchanged_eq _ attrs input trigger Hinput Htrigger trigger input);
    try done; apply RawEquals_refl.
Qed.

(** ** The validator and the schema *)

(** Whenever the validation of a configuration object returns, the object
    holds [uuid] and [output], and the diagnostics are the read-only errors
    of those of the two that are not null, in that order. *)
Lemma validate_inv (attrs : gmap string cty.Value) (resp : ValidateResp.t) :
  validateDataResourceConfig (ValidateReq.mk (cty.ObjectVal attrs))
  = Some resp →
  ∃ uuid output,
    attrs !! "uuid" = Some uuid ∧ attrs !! "output" = Some output ∧
    ValidateResp.Diagnostics resp
    = ((if cty.IsNull uuid then []
        else [tfdiags.nativeError (fmt.q "uuid" +:+ " attribute is read-only")])
       ++ (if cty.IsNull output then []
           else [tfdiags.nativeError
                   (fmt.q "output" +:+ " attribute is read-only")]))%list.
Proof.
  unfold validateDataResourceConfig, validateAttr. simpl. intros Hvalidate.
  destruct (attrs !! "uuid") as [uuid|]; [|done]. simpl in Hvalidate.
  destruct (attrs !! "output") as [output|]; last first.
  { by destruct (cty.IsNull uuid). }
  exists uuid, output. split_and!; try done.
  destruct (cty.IsNull uuid) eqn:Hu; simpl in Hvalidate;
    destruct (cty.IsNull output) eqn:Ho; simpl in Hvalidate;
    by simplify_eq.
Qed.

(** X20. The validator rejects exactly what the schema declares computed:
    for a configuration object and an attribute the schema declares, set to
    a value that is not null, the diagnostics name that attribute as
    read-only if and only if the schema marks it [Computed]; an optional
    attribute is never reported. *)
Theorem validate_flags_exactly_computed (attrs : gmap string cty.Value)
    (resp : ValidateResp.t) (name : string) (attr : configschema.Attribute)
    (val : cty.Value) :
  validateDataResourceConfig (ValidateReq.mk (cty.ObjectVal attrs))
  = Some resp →
  configschema.Attributes (providers.Block dataResourceSchema) !! name
  = Some attr →
  attrs !! name = Some val →
  cty.IsNull val = false →
  tfdiags.nativeError (fmt.q name +:+ " attribute is read-only")
  ∈ ValidateResp.Diagnostics resp
  ↔ configschema.Computed attr = true.
Proof.
  intros Hvalidate Hschema Hval Hset.
  destruct (validate_inv _ _ Hvalidate)
    as (uuid & output & Huuid & Houtput & ->).
  assert (name ∈ ({["input"; "output"; "trigger"; "uuid"]} : gset string))
    as Hname.
  { rewrite <- schema_dom. apply elem_of_dom. by eexists. }
  rewrite !elem_of_union, !elem_of_singleton in Hname.
  destruct_or!; subst name; vm_compute in Hschema; simplify_eq; simpl;
    rewrite ?Hset; simpl.
  - split; [|done].
    destruct (cty.IsNull uuid), (cty.IsNull output); simpl;
      rewrite ?elem_of_cons, ?elem_of_nil; intros H; destruct_or!;
      try done; vm_compute in H; discriminate.
  - split; [done|]. intros _. apply elem_of_app. right. apply list_elem_of_here.
  - split; [|done].
    destruct (cty.IsNull uuid), (cty.IsNull output); simpl;
      rewrite ?elem_of_cons, ?elem_of_nil; intros H; destruct_or!;
      try done; vm_compute in H; discriminate.
  - split; [done|]. intros _. apply list_elem_of_here.
Qed.

(** * Examples for the further properties *)

Lemma plan_keeps_user_attributes_witness :
  ∃ resp,
    planDataResourceChange
      (PlanReq.mk appliedState (cty.ObjectVal inputChangedAttrs)) = Some resp
    ∧ cty.GetAttr (PlanResp.PlannedState resp) "input"
      = cty.GetAttr (cty.ObjectVal inputChangedAttrs) "input".
Proof.
  eexists. split; [reflexivity|].
  by apply (plan_keeps_user_attributes appliedState
              (cty.ObjectVal inputChangedAttrs) _ "input").
Defined.

Lemma plan_reports_nothing_witness :
  ∃ resp,
    planDataResourceChange
      (PlanReq.mk appliedState (cty.ObjectVal triggerChangedAttrs)) = Some resp
    ∧ PlanResp.Diagnostics resp = []
    ∧ (PlanResp.RequiresReplace resp = []
       ∨ PlanResp.RequiresReplace resp = [cty.GetAttrPath "trigger"]).
Proof.
  eexists. split; [reflexivity|].
  by apply (plan_reports_nothing appliedState
              (cty.ObjectVal triggerChangedAttrs)).
Defined.

Lemma plan_replaces_iff_trigger_differs_witness :
  ∃ resp,
    planDataResourceChange
      (PlanReq.mk appliedState (cty.ObjectVal triggerChangedAttrs)) = Some resp
    ∧ (PlanResp.RequiresReplace resp = [cty.GetAttrPath "trigger"]
       ↔ cty.IsNull appliedState = false
         ∧ cty.GetAttr appliedState "trigger"
           ≠ triggerChangedAttrs !! "trigger").
Proof.
  eexists. split; [reflexivity|].
  by apply (plan_replaces_iff_trigger_differs appliedState
              triggerChangedAttrs).
Defined.

Lemma plan_in_place_keeps_uuid_witness :
  ∃ resp,
    planDataResourceChange
      (PlanReq.mk appliedState (cty.ObjectVal inputChangedAttrs)) = Some resp
    ∧ cty.GetAttr (PlanResp.PlannedState resp) "uuid"
      = inputChangedAttrs !! "uuid"
    ∧ PlanResp.RequiresReplace resp = [].
Proof.
  eexists. split; [reflexivity|].
  by apply (plan_in_place_keeps_uuid appliedState inputChangedAttrs).
Defined.

Lemma plan_idempotent_witness :
  ∃ resp,
    planDataResourceChange
      (PlanReq.mk appliedState (cty.ObjectVal triggerChangedAttrs)) = Some resp
    ∧ planDataResourceChange
        (PlanReq.mk appliedState (PlanResp.PlannedState resp)) = Some resp.
Proof.
  eexists. split; [reflexivity|].
  by apply (plan_idempotent appliedState (cty.ObjectVal triggerChangedAttrs)).
Defined.

Lemma plan_total_on_resource_states_witness :
  ∃ resp,
    planDataResourceChange
      (PlanReq.mk appliedState (cty.ObjectVal inputChangedAttrs)) = Some resp
    ∧ isResourceState (PlanResp.PlannedState resp) = true.
Proof.
  apply (plan_total_on_resource_states appliedState
           (cty.ObjectVal inputChangedAttrs)); vm_compute; reflexivity.
Defined.

Lemma plan_unknown_trigger_replaces_witness :
  ∃ resp,
    planDataResourceChange
      (PlanReq.mk appliedState
         (stateObject (cty.StringVal "a") (cty.StringVal "a")
            (cty.UnknownVal cty.String) (cty.StringVal "U"))) = Some resp
    ∧ PlanResp.RequiresReplace resp = [cty.GetAttrPath "trigger"]
    ∧ cty.GetAttr (PlanResp.PlannedState resp) "uuid"
      = Some (cty.UnknownVal cty.String).
Proof.
  by apply (plan_unknown_trigger_replaces appliedState
              (stateAttrs (cty.StringVal "a") (cty.StringVal "a")
                 (cty.UnknownVal cty.String) (cty.StringVal "U"))
              (cty.StringVal "a") (cty.UnknownVal cty.String)
              (cty.StringVal "t")).
Defined.

Lemma apply_preserves_known_witness :
  ∃ resp,
    applyDataResourceChange failingGenerator None
      (ApplyReq.mk (cty.ObjectVal createdAttrs)) = Some resp
    ∧ cty.GetAttr (ApplyResp.NewState resp) "trigger"
      = Some (cty.StringVal "t").
Proof.
  eexists. split; [reflexivity|].
  by apply (apply_preserves_known failingGenerator None
              (cty.ObjectVal createdAttrs) _ "trigger" (cty.StringVal "t")).
Defined.

Lemma apply_keeps_user_attributes_witness :
  ∃ resp,
    applyDataResourceChange workingGenerator None
      (ApplyReq.mk
         (stateObject cty.DynamicVal cty.DynamicVal (cty.StringVal "t")
            (cty.UnknownVal cty.String))) = Some resp
    ∧ cty.GetAttr (ApplyResp.NewState resp) "input"
      = cty.GetAttr
          (stateObject cty.DynamicVal cty.DynamicVal (cty.StringVal "t")
             (cty.UnknownVal cty.String)) "input".
Proof.
  eexists. split; [reflexivity|].
  by apply (apply_keeps_user_attributes workingGenerator None
              (stateObject cty.DynamicVal cty.DynamicVal (cty.StringVal "t")
                 (cty.UnknownVal cty.String)) _ "input").
Defined.

Lemma apply_settles_uuid_witness :
  ∃ resp,
    applyDataResourceChange failingGenerator None
      (ApplyReq.mk (cty.ObjectVal createdAttrs)) = Some resp
    ∧ ∃ final,
        cty.GetAttr (ApplyResp.NewState resp) "uuid" = Some final
        ∧ cty.IsKnown final = true
        ∧ (∀ uuid, createdAttrs !! "uuid" = Some uuid →
             cty.IsKnown uuid = false → cty.TypeOf final = cty.String).
Proof.
  eexists. split; [reflexivity|].
  by apply (apply_settles_uuid failingGenerator None createdAttrs).
Defined.

Lemma apply_hook_overrides_witness :
  ∃ resp,
    applyDataResourceChange failingGenerator (Some fixedHook)
      (ApplyReq.mk (cty.ObjectVal createdAttrs)) = Some resp
    ∧ cty.GetAttr (ApplyResp.NewState resp) "uuid"
      = Some (cty.StringVal (fixedHook ()))
    ∧ ∃ resp',
        applyDataResourceChange workingGenerator (Some fixedHook)
          (ApplyReq.mk (cty.ObjectVal createdAttrs)) = Some resp'
        ∧ ApplyResp.NewState resp' = ApplyResp.NewState resp.
Proof.
  eexists. split; [reflexivity|].
  by apply (apply_hook_overrides failingGenerator workingGenerator fixedHook
              createdAttrs (cty.UnknownVal cty.String)).
Defined.

Lemma apply_diagnostics_iff_witness :
  ∃ resp,
    applyDataResourceChange failingGenerator None
      (ApplyReq.mk (cty.ObjectVal createdAttrs)) = Some resp
    ∧ (List.length (ApplyResp.Diagnostics resp) ≤ 1)%nat
    ∧ (ApplyResp.Diagnostics resp ≠ []
       ↔ cty.IsKnown (cty.UnknownVal cty.String) = false
         ∧ is_Some (failingGenerator ()).2).
Proof.
  eexists. split; [reflexivity|].
  by apply (apply_diagnostics_iff failingGenerator None createdAttrs
              (cty.UnknownVal cty.String)).
Defined.

Lemma apply_known_uuid_ignores_generator_witness :
  applyDataResourceChange failingGenerator None
    (ApplyReq.mk (cty.ObjectVal inputChangedAttrs))
  = applyDataResourceChange workingGenerator (Some fixedHook)
      (ApplyReq.mk (cty.ObjectVal inputChangedAttrs))
  ∧ ∀ resp,
      applyDataResourceChange failingGenerator None
        (ApplyReq.mk (cty.ObjectVal inputChangedAttrs)) = Some resp →
      ApplyResp.Diagnostics resp = [].
Proof.
  by apply (apply_known_uuid_ignores_generator failingGenerator
              workingGenerator None (Some fixedHook) inputChangedAttrs
              (cty.StringVal "U")).
Defined.

Lemma apply_stable_witness :
  ∃ resp,
    applyDataResourceChange workingGenerator None
      (ApplyReq.mk (cty.ObjectVal createdAttrs)) = Some resp
    ∧ applyDataResourceChange failingGenerator (Some fixedHook)
        (ApplyReq.mk (ApplyResp.NewState resp))
      = Some (ApplyResp.mk (ApplyResp.NewState resp) []).
Proof.
  eexists. split; [reflexivity|].
  by apply (apply_stable workingGenerator failingGenerator None
              (Some fixedHook) createdAttrs (cty.StringVal "a")).
Defined.

Lemma apply_total_on_resource_states_witness :
  ∃ resp,
    applyDataResourceChange failingGenerator None
      (ApplyReq.mk (cty.ObjectVal createdAttrs)) = Some resp
    ∧ isResourceState (ApplyResp.NewState resp) = true.
Proof.
  apply (apply_total_on_resource_states failingGenerator None
           (cty.ObjectVal createdAttrs)); vm_compute; reflexivity.
Defined.

Lemma create_then_apply_witness :
  ∃ planResp applyResp,
    planDataResourceChange
      (PlanReq.mk nullState
         (stateObject (cty.StringVal "a") dynamicNull (cty.StringVal "t")
            (cty.NullVal cty.String))) = Some planResp
    ∧ PlanResp.RequiresReplace planResp = []
    ∧ applyDataResourceChange workingGenerator None
        (ApplyReq.mk (PlanResp.PlannedState planResp)) = Some applyResp
    ∧ cty.GetAttr (ApplyResp.NewState applyResp) "output"
      = Some (cty.StringVal "a")
    ∧ cty.GetAttr (ApplyResp.NewState applyResp) "uuid"
      = Some (cty.StringVal (workingGenerator ()).1).
Proof.
  by apply (create_then_apply workingGenerator None nullState
              (stateAttrs (cty.StringVal "a") dynamicNull (cty.StringVal "t")
                 (cty.NullVal cty.String))
              (cty.StringVal "a") (cty.StringVal "t")).
Defined.

Lemma replace_then_apply_witness :
  ∃ planResp applyResp,
    planDataResourceChange
      (PlanReq.mk appliedState (cty.ObjectVal triggerChangedAttrs))
    = Some planResp
    ∧ PlanResp.RequiresReplace planResp = [cty.GetAttrPath "trigger"]
    ∧ applyDataResourceChange workingGenerator None
        (ApplyReq.mk (PlanResp.PlannedState planResp)) = Some applyResp
    ∧ cty.GetAttr (ApplyResp.NewState applyResp) "output"
      = Some (cty.StringVal "a")
    ∧ cty.GetAttr (ApplyResp.NewState applyResp) "uuid"
      = Some (cty.StringVal (workingGenerator ()).1).
Proof.
  by apply (replace_then_apply workingGenerator None appliedState
              triggerChangedAttrs (cty.StringVal "a") (cty.StringVal "t2")
              (cty.StringVal "t")).
Defined.

Lemma update_then_apply_witness :
  ∃ planResp applyResp,
    planDataResourceChange
      (PlanReq.mk appliedState (cty.ObjectVal inputChangedAttrs))
    = Some planResp
    ∧ PlanResp.RequiresReplace planResp = []
    ∧ applyDataResourceChange failingGenerator None
        (ApplyReq.mk (PlanResp.PlannedState planResp)) = Some applyResp
    ∧ cty.GetAttr (ApplyResp.NewState applyResp) "output"
      = Some (cty.StringVal "b")
    ∧ cty.GetAttr (ApplyResp.NewState applyResp) "uuid"
      = Some (cty.StringVal "U")
    ∧ ApplyResp.Diagnostics applyResp = [].
Proof.
  by apply (update_then_apply failingGenerator None appliedState
              inputChangedAttrs (cty.StringVal "b") (cty.StringVal "t")
              (cty.StringVal "a") (cty.StringVal "U")).
Defined.

Lemma read_then_plan_no_change_witness :
  planDataResourceChange
    (PlanReq.mk
       (ReadResp.NewState
          (readDataResourceState (ReadReq.mk (cty.ObjectVal inputChangedAttrs))))
       (cty.ObjectVal inputChangedAttrs))
  = Some (PlanResp.mk (cty.ObjectVal inputChangedAttrs) [] [])
  ∧ ReadResp.Diagnostics
      (readDataResourceState (ReadReq.mk (cty.ObjectVal inputChangedAttrs)))
    = [].
Proof.
  apply (read_then_plan_no_change inputChangedAttrs); eexists; reflexivity.
Defined.

Lemma validate_flags_exactly_computed_witness :
  ∃ resp,
    validateDataResourceConfig
      (ValidateReq.mk (cty.ObjectVal inputChangedAttrs)) = Some resp
    ∧ (tfdiags.nativeError (fmt.q "uuid" +:+ " attribute is read-only")
       ∈ ValidateResp.Diagnostics resp
       ↔ configschema.Computed
           (configschema.mkAttribute cty.String false true) = true)
    ∧ (tfdiags.nativeError (fmt.q "input" +:+ " attribute is read-only")
       ∈ ValidateResp.Diagnostics resp
       ↔ configschema.Computed
           (configschema.mkAttribute cty.DynamicPseudoType true false) = true).
Proof.
  eexists. split; [reflexivity|]. split.
  - by apply (validate_flags_exactly_computed inputChangedAttrs _ "uuid"
                (configschema.mkAttribute cty.String false true)
                (cty.StringVal "U")).
  - by apply (validate_flags_exactly_computed inputChangedAttrs _ "input"
                (configschema.mkAttribute cty.DynamicPseudoType true false)
                (cty.StringVal "b")).
Defined.
